(** * Kernel Planckster: result envelopes, logical file names, repositories

    A shallow embedding of
      - [lib/core/entity/models.py]: the [LFN] value object, [SourceData];
      - [lib/core/sdk/dto.py]: [BaseDTO], [generate_error_dto_and_message];
      - [lib/infrastructure/repository/sqla/]: [list_message_sources] of
        [sqla_message_repository.py] and [get_research_context] of
        [sqla_research_context_repository.py];
    followed by the properties of the envelope protocol, of the LFN codec
    and of the two repository operations.

    Python [str] values are Rocq strings over the code points 0..255; case
    mapping is the one of the ASCII letters (code points above 127 have no
    case here).  Python [int] is [Z], without the interpreter's limits on
    the size of a number it prints or reads.  A call that can raise
    returns a value of [res]: either [Ret v] or [Raise e].  The calls to
    the logger do not take part in what a function returns; they are left
    out. *)

From stdpp Require Import gmap.
From Stdlib Require Import ZArith NArith Ascii String List Bool Lia.
From Stdlib Require Import DecimalString DecimalPos DecimalZ.
Import ListNotations.
Open Scope string_scope.

(* stdpp freezes [String.append] for [simpl]; the proofs below compute
   with it. *)
#[local] Arguments String.append !s1 s2 : simpl nomatch.

(* ===================================================================== *)
(** ** The fragment of Python the sources rely on                        *)
(* ===================================================================== *)

Module Py.

(** Exceptions that the modelled code can raise. *)
Inductive exn : Type :=
| ValueError (msg : string)
| AttributeError (msg : string)
| UnboundLocalError (var : string)
| ValidationError (fields : list string).

(** Outcome of a call: a returned value or a raised exception. *)
Inductive res (A : Type) : Type :=
| Ret (a : A)
| Raise (e : exn).
Arguments Ret {A} a.
Arguments Raise {A} e.

Definition bind {A B : Type} (m : res A) (k : A -> res B) : res B :=
  match m with
  | Ret a => k a
  | Raise e => Raise e
  end.

(** A local variable of a function body: [None] while it is unbound.
    Reading an unbound local raises [UnboundLocalError]. *)
Definition read_local {A : Type} (var : string) (slot : option A) : res A :=
  match slot with
  | Some v => Ret v
  | None => Raise (UnboundLocalError var)
  end.

(** Values passed where the source says [Any]. *)
Inductive value : Type :=
| VInt (z : Z)
| VStr (s : string).

(** [str(int)]: decimal digits, a leading minus sign for negatives. *)
Definition str_of_int (z : Z) : string :=
  NilZero.string_of_int (Z.to_int z).

(** [str(v)] *)
Definition str (v : value) : string :=
  match v with
  | VInt z => str_of_int z
  | VStr s => s
  end.

(** How an f-string renders a [str | None] slot. *)
Definition fmt_opt (o : option string) : string :=
  match o with
  | Some s => s
  | None => "None"
  end.

(** Truth value of a [str]: the empty string is falsy. *)
Definition truthy_str (s : string) : bool :=
  match s with
  | EmptyString => false
  | String _ _ => true
  end.

(** *** Characters *)

Definition code (c : ascii) : N := N_of_ascii c.

Definition between (lo hi : ascii) (c : ascii) : bool :=
  (code lo <=? code c)%N && (code c <=? code hi)%N.

Definition is_lower (c : ascii) : bool := between "a" "z" c.
Definition is_upper (c : ascii) : bool := between "A" "Z" c.
Definition is_digit (c : ascii) : bool := between "0" "9" c.
Definition is_alpha (c : ascii) : bool := is_lower c || is_upper c.

Definition lower_char (c : ascii) : ascii :=
  if is_upper c then ascii_of_N (code c + 32) else c.

Definition upper_char (c : ascii) : ascii :=
  if is_lower c then ascii_of_N (code c - 32) else c.

(** [str.isspace] on one code point of the range 0..255. *)
Definition is_space (c : ascii) : bool :=
  let n := code c in
  ((9 <=? n) && (n <=? 13) || (28 <=? n) && (n <=? 32)
   || (n =? 133) || (n =? 160))%N.

(** *** Strings *)

Fixpoint map_str (f : ascii -> ascii) (s : string) : string :=
  match s with
  | EmptyString => EmptyString
  | String c r => String (f c) (map_str f r)
  end.

Fixpoint filter_str (keep : ascii -> bool) (s : string) : string :=
  match s with
  | EmptyString => EmptyString
  | String c r =>
      if keep c then String c (filter_str keep r) else filter_str keep r
  end.

Fixpoint all_str (p : ascii -> bool) (s : string) : bool :=
  match s with
  | EmptyString => true
  | String c r => p c && all_str p r
  end.

Fixpoint rev_str (s : string) : string :=
  match s with
  | EmptyString => EmptyString
  | String c r => rev_str r ++ String c EmptyString
  end.

(** [s.lower()], [s.upper()] *)
Definition lower (s : string) : string := map_str lower_char s.
Definition upper (s : string) : string := map_str upper_char s.

(** [s.capitalize()]: first character upper case, the rest lower case. *)
Definition capitalize (s : string) : string :=
  match s with
  | EmptyString => EmptyString
  | String c r => String (upper_char c) (lower r)
  end.

(** [s.title()]: a letter that follows a letter is lowered, any other
    letter is raised. *)
Fixpoint title_from (after_letter : bool) (s : string) : string :=
  match s with
  | EmptyString => EmptyString
  | String c r =>
      String (if after_letter then lower_char c else upper_char c)
             (title_from (is_alpha c) r)
  end.
Definition title (s : string) : string := title_from false s.

(** [s.strip()] *)
Fixpoint lstrip (s : string) : string :=
  match s with
  | EmptyString => EmptyString
  | String c r => if is_space c then lstrip r else s
  end.
Definition strip (s : string) : string :=
  rev_str (lstrip (rev_str (lstrip s))).

(** [pat in s] *)
Fixpoint contains (pat s : string) : bool :=
  prefix pat s
  || match s with
     | EmptyString => false
     | String _ r => contains pat r
     end.

(** Number of positions of [s] at which [pat] starts. *)
Fixpoint occurrences (pat s : string) : nat :=
  (if prefix pat s then 1 else 0)
  + match s with
    | EmptyString => 0
    | String _ r => occurrences pat r
    end.

(** The character [c] does not occur in [s]. *)
Definition absent_from (c : ascii) (s : string) : bool :=
  all_str (fun x => negb (Ascii.eqb x c)) s.

(** [x in xs] for a list of strings. *)
Definition in_list (x : string) (xs : list string) : bool :=
  existsb (String.eqb x) xs.

(** [s.split(sep)] for a one-character separator: never empty. *)
Fixpoint split (sep : ascii) (s : string) : list string :=
  match s with
  | EmptyString => [EmptyString]
  | String c r =>
      if Ascii.eqb c sep then EmptyString :: split sep r
      else match split sep r with
           | h :: t => String c h :: t
           | [] => [String c EmptyString]
           end
  end.

(** [s.replace(old, new)] for a one-character [old]. *)
Fixpoint replace (old : ascii) (new : string) (s : string) : string :=
  match s with
  | EmptyString => EmptyString
  | String c r =>
      if Ascii.eqb c old then new ++ replace old new r
      else String c (replace old new r)
  end.

(** [s.rfind(c)]: index of the last [c], or -1. *)
Fixpoint rfind (c : ascii) (s : string) : Z :=
  match s with
  | EmptyString => (-1)%Z
  | String a r =>
      let i := rfind c r in
      if (0 <=? i)%Z then (i + 1)%Z
      else if Ascii.eqb a c then 0%Z else (-1)%Z
  end.

(** [s[i:]] for [0 <= i]. *)
Fixpoint drop_str (n : nat) (s : string) : string :=
  match n, s with
  | O, _ => s
  | S n', String _ r => drop_str n' r
  | S _, EmptyString => EmptyString
  end.
Definition slice_from (i : Z) (s : string) : string :=
  drop_str (Z.to_nat i) s.

(** A class object, as far as the sources look at one: its [__name__]
    and the [__name__] of its [__class__] (its metaclass). *)
Record class_obj : Type := {
  cls_name : string;
  cls_class_name : string
}.

(** A class declared with [class X(BaseModel)]: pydantic's metaclass is
    [ModelMetaclass]. *)
Definition model_class (name : string) : class_obj :=
  {| cls_name := name; cls_class_name := "ModelMetaclass" |}.

End Py.

Export Py.

Notation "'let!' x ':=' m 'in' k" := (bind m (fun x => k))
  (at level 10, x name, m at level 100, k at level 200).

(* ===================================================================== *)
(** ** Standard library: [os.path] and [uuid]                            *)
(* ===================================================================== *)

Module Posixpath.

(** [os.path.basename(p)]: [i = p.rfind('/') + 1; return p[i:]]. *)
Definition basename (p : string) : string :=
  let i := (rfind "/" p + 1)%Z in
  slice_from i p.

End Posixpath.

Module Uuid.

(** A UUID is its 128-bit integer. *)
Definition UUID : Type := N.

(** [uuid.uuid4()] on the 16 random bytes read as the integer
    [entropy]: the variant and version bits are then forced. *)
Definition uuid4 (entropy : N) : UUID :=
  let i := (entropy mod 2 ^ 128)%N in
  let i := N.ldiff i (N.shiftl 0xc000 48) in
  let i := N.lor i (N.shiftl 0x8000 48) in
  let i := N.ldiff i (N.shiftl 0xf000 64) in
  N.lor i (N.shiftl 4 76).

Definition hex_char (b3 b2 b1 b0 : bool) : ascii :=
  match b3, b2, b1, b0 with
  | false, false, false, false => "0"
  | false, false, false, true => "1"
  | false, false, true, false => "2"
  | false, false, true, true => "3"
  | false, true, false, false => "4"
  | false, true, false, true => "5"
  | false, true, true, false => "6"
  | false, true, true, true => "7"
  | true, false, false, false => "8"
  | true, false, false, true => "9"
  | true, false, true, false => "a"
  | true, false, true, true => "b"
  | true, true, false, false => "c"
  | true, true, false, true => "d"
  | true, true, true, false => "e"
  | true, true, true, true => "f"
  end.

(** The characters a rendered UUID is made of. *)
Definition is_hex_or_dash (c : ascii) : bool :=
  is_digit c || between "a" "f" c || Ascii.eqb c "-".

(** The 16 lower-case hex digits. *)
Definition is_hex_digit (c : ascii) : bool :=
  is_digit c || between "a" "f" c.

(** Hex digit number [k] of [n], counted from the least significant. *)
Definition nibble (n : N) (k : N) : ascii :=
  hex_char (N.testbit n (4 * k + 3)) (N.testbit n (4 * k + 2))
           (N.testbit n (4 * k + 1)) (N.testbit n (4 * k)).

Fixpoint hex_digits (n : N) (count : nat) : string :=
  match count with
  | O => EmptyString
  | S k => String (nibble n (N.of_nat k)) (hex_digits n k)
  end.

(** ['%032x' % u] *)
Definition hex32 (u : UUID) : string := hex_digits u 32.

(** [str(u)]: the 8-4-4-4-12 rendering. *)
Definition to_str (u : UUID) : string :=
  let hex := hex32 u in
  substring 0 8 hex ++ "-" ++ substring 8 4 hex ++ "-"
  ++ substring 12 4 hex ++ "-" ++ substring 16 4 hex ++ "-"
  ++ substring 20 12 hex.

End Uuid.

(* ===================================================================== *)
(** ** The JSON layer under [model_dump_json] / [model_validate_json]    *)
(* ===================================================================== *)

(** The models that are dumped and loaded here are flat: an object whose
    members are strings and integers.  [dumps] writes the compact text
    (no white space) that [model_dump_json] produces; [loads] reads that
    fragment of JSON back and gives [None] on any other text. *)
Module Json.

Inductive jvalue : Type :=
| JString (s : string)
| JInt (z : Z).

Definition jobject : Type := list (string * jvalue).

(** The double quote and the backslash. *)
Definition quote : ascii := ascii_of_N 34.
Definition backslash : ascii := ascii_of_N 92.

(** Two hex digits of a code point below 256. *)
Definition hex_hi (c : ascii) : ascii :=
  match c with
  | Ascii _ _ _ _ b4 b5 b6 b7 => Uuid.hex_char b7 b6 b5 b4
  end.
Definition hex_lo (c : ascii) : ascii :=
  match c with
  | Ascii b0 b1 b2 b3 _ _ _ _ => Uuid.hex_char b3 b2 b1 b0
  end.

(** One character of a string literal, written in front of [k]. *)
Definition dump_char (c : ascii) (k : string) : string :=
  if Ascii.eqb c quote then String backslash (String quote k)
  else if Ascii.eqb c backslash then String backslash (String backslash k)
  else if (code c =? 8)%N then String backslash (String "b" k)
  else if (code c =? 9)%N then String backslash (String "t" k)
  else if (code c =? 10)%N then String backslash (String "n" k)
  else if (code c =? 12)%N then String backslash (String "f" k)
  else if (code c =? 13)%N then String backslash (String "r" k)
  else if (code c <? 32)%N then
    String backslash (String "u" (String "0" (String "0"
      (String (hex_hi c) (String (hex_lo c) k)))))
  else String c k.

Fixpoint dump_chars (s : string) (k : string) : string :=
  match s with
  | EmptyString => k
  | String c r => dump_char c (dump_chars r k)
  end.

Definition dump_string (s : string) (k : string) : string :=
  String quote (dump_chars s (String quote k)).

Definition dump_value (v : jvalue) (k : string) : string :=
  match v with
  | JString s => dump_string s k
  | JInt z => str_of_int z ++ k
  end.

Definition dump_member (m : string * jvalue) (k : string) : string :=
  dump_string (fst m) (String ":" (dump_value (snd m) k)).

Fixpoint dump_members (ms : list (string * jvalue)) (k : string) : string :=
  match ms with
  | [] => String "}" k
  | [m] => dump_member m (String "}" k)
  | m :: ms' => dump_member m (String "," (dump_members ms' k))
  end.

Definition dumps (o : jobject) : string :=
  String "{" (dump_members o EmptyString).

(** Value of a hex digit. *)
Definition hex_value (c : ascii) : option N :=
  if is_digit c then Some (code c - 48)%N
  else if between "a" "f" c then Some (code c - 87)%N
  else if between "A" "F" c then Some (code c - 55)%N
  else None.

(** The code point of a [uXXXX] escape, when it is below 256. *)
Definition unicode_escape (h1 h2 h3 h4 : ascii) : option ascii :=
  match hex_value h1, hex_value h2, hex_value h3, hex_value h4 with
  | Some a, Some b, Some c, Some d =>
      let n := (((a * 16 + b) * 16 + c) * 16 + d)%N in
      if (n <? 256)%N then Some (ascii_of_N n) else None
  | _, _, _, _ => None
  end.

(** The character a one-letter escape stands for. *)
Definition simple_escape (e : ascii) : option ascii :=
  if Ascii.eqb e quote then Some quote
  else if Ascii.eqb e backslash then Some backslash
  else if Ascii.eqb e "/" then Some "/"%char
  else if Ascii.eqb e "b" then Some (ascii_of_N 8)
  else if Ascii.eqb e "t" then Some (ascii_of_N 9)
  else if Ascii.eqb e "n" then Some (ascii_of_N 10)
  else if Ascii.eqb e "f" then Some (ascii_of_N 12)
  else if Ascii.eqb e "r" then Some (ascii_of_N 13)
  else None.

Definition push (c : ascii) (p : option (string * string))
  : option (string * string) :=
  match p with
  | Some (s, rest) => Some (String c s, rest)
  | None => None
  end.

(** Reads a string literal after its opening quote: the string and the
    text after the closing quote. *)
Fixpoint load_chars (s : string) : option (string * string) :=
  match s with
  | EmptyString => None
  | String c r =>
      if Ascii.eqb c quote then Some (EmptyString, r)
      else if Ascii.eqb c backslash then
        match r with
        | EmptyString => None
        | String e r1 =>
            if Ascii.eqb e "u" then
              match r1 with
              | String h1 (String h2 (String h3 (String h4 r2))) =>
                  match unicode_escape h1 h2 h3 h4 with
                  | Some a => push a (load_chars r2)
                  | None => None
                  end
              | _ => None
              end
            else
              match simple_escape e with
              | Some a => push a (load_chars r1)
              | None => None
              end
        end
      else if (code c <? 32)%N then None
      else push c (load_chars r)
  end.

Definition is_number_char (c : ascii) : bool :=
  is_digit c || Ascii.eqb c "-".

(** The longest prefix of number characters, and the rest. *)
Fixpoint span_number (s : string) : string * string :=
  match s with
  | EmptyString => (EmptyString, EmptyString)
  | String c r =>
      if is_number_char c then
        let (d, rest) := span_number r in (String c d, rest)
      else (EmptyString, s)
  end.

Definition load_int (s : string) : option (Z * string) :=
  let (d, rest) := span_number s in
  match NilZero.int_of_string d with
  | Some i => Some (Z.of_int i, rest)
  | None => None
  end.

Definition load_value (s : string) : option (jvalue * string) :=
  match s with
  | String c r =>
      if Ascii.eqb c quote then
        match load_chars r with
        | Some (v, rest) => Some (JString v, rest)
        | None => None
        end
      else
        match load_int s with
        | Some (z, rest) => Some (JInt z, rest)
        | None => None
        end
  | EmptyString => None
  end.

(** Reads one member and what follows it. *)
Definition load_member (s : string)
  : option ((string * jvalue) * string) :=
  match s with
  | String c r =>
      if Ascii.eqb c quote then
        match load_chars r with
        | Some (key, String colon r1) =>
            if Ascii.eqb colon ":" then
              match load_value r1 with
              | Some (v, rest) => Some ((key, v), rest)
              | None => None
              end
            else None
        | _ => None
        end
      else None
  | EmptyString => None
  end.

(** Reads the members up to the closing brace; [fuel] bounds their
    number. *)
Fixpoint load_members (fuel : nat) (s : string)
  : option (list (string * jvalue) * string) :=
  match fuel with
  | O => None
  | S fuel' =>
      match load_member s with
      | Some (m, String c rest) =>
          if Ascii.eqb c "}" then Some ([m], rest)
          else if Ascii.eqb c "," then
            match load_members fuel' rest with
            | Some (ms, rest') => Some (m :: ms, rest')
            | None => None
            end
          else None
      | _ => None
      end
  end.

Definition loads (s : string) : option jobject :=
  match s with
  | String c r =>
      if Ascii.eqb c "{" then
        match r with
        | String c' r' =>
            if Ascii.eqb c' "}" then
              match r' with
              | EmptyString => Some []
              | String _ _ => None
              end
            else
              match load_members (String.length r) r with
              | Some (ms, EmptyString) => Some ms
              | _ => None
              end
        | EmptyString => None
        end
      else None
  | EmptyString => None
  end.

(** [obj[key]]: with a repeated key the last member wins. *)
Fixpoint get (key : string) (o : jobject) : option jvalue :=
  match o with
  | [] => None
  | (k, v) :: o' =>
      match get key o' with
      | Some v' => Some v'
      | None => if String.eqb k key then Some v else None
      end
  end.

End Json.

(* ===================================================================== *)
(** ** [lib/core/entity/models.py]                                       *)
(* ===================================================================== *)

Module Models.

Inductive KnowledgeSourceEnum : Type :=
| TELEGRAM | TWITTER | AUGMENTED | SENTINEL | USER.

Inductive ProtocolEnum : Type :=
| S3 | NAS | LOCAL.

Inductive SourceDataStatusEnum : Type :=
| CREATED | UNAVAILABLE | AVAILABLE | INCONSISTENT_DATASET.

(** The [value] of each enum member. *)
Definition KnowledgeSourceEnum_value (k : KnowledgeSourceEnum) : string :=
  match k with
  | TELEGRAM => "telegram"
  | TWITTER => "twitter"
  | AUGMENTED => "augmented"
  | SENTINEL => "sentinel"
  | USER => "user"
  end.

Definition ProtocolEnum_value (p : ProtocolEnum) : string :=
  match p with
  | S3 => "s3"
  | NAS => "nas"
  | LOCAL => "local"
  end.

(** [Enum(value)]: the member with that value, if any. *)
Definition KnowledgeSourceEnum_of_value (s : string)
  : option KnowledgeSourceEnum :=
  find (fun k => String.eqb (KnowledgeSourceEnum_value k) s)
       [TELEGRAM; TWITTER; AUGMENTED; SENTINEL; USER].

Definition ProtocolEnum_of_value (s : string) : option ProtocolEnum :=
  find (fun p => String.eqb (ProtocolEnum_value p) s) [S3; NAS; LOCAL].

(** The datetime columns are carried around and never inspected: a
    POSIX timestamp stands for a [datetime]. *)
Definition datetime : Type := Z.

(** *** Field validation: what a model's constructor reports

    A field that is required and not given, or whose value does not
    validate, is listed by name in the [ValidationError]. *)

Definition field_missing {A : Type} (field : string) (arg : option A)
  : list string :=
  match arg with
  | Some _ => []
  | None => [field]
  end.

Definition field_invalid {A : Type} (field : string) (arg : option (res A))
  : list string :=
  match arg with
  | Some (Ret _) => []
  | Some (Raise _) | None => [field]
  end.

(** *** [class LFN] *)

Record LFN : Type := {
  protocol : ProtocolEnum;
  tracer_id : string;
  job_id : Z;
  source : KnowledgeSourceEnum;
  relative_path : string
}.

Definition marker : string := "sdamarker".

(** The character class [a-zA-Z0-9_\./-] whose complement [re.sub]
    deletes. *)
Definition allowed_char (c : ascii) : bool :=
  is_lower c || is_upper c || is_digit c
  || Ascii.eqb c "_" || Ascii.eqb c "." || Ascii.eqb c "/"
  || Ascii.eqb c "-".

(** [re.sub] with that pattern and the empty replacement. *)
Definition re_sub_disallowed (v : string) : string :=
  filter_str allowed_char v.

(** The [relative_path] field validator.  [entropy] is what
    [uuid.uuid4()] draws if the branch that calls it is taken. *)
Definition relative_path_must_be_alphanumberic_underscores_backslashes
    (entropy : N) (v : string) : string :=
  if negb (contains marker v) then
    let v := Posixpath.basename v in
    let v := re_sub_disallowed v in
    let ext := last (split "." v) EmptyString in
    let name := hd EmptyString (split "." v) in
    let seed :=
      replace "-" EmptyString (Uuid.to_str (Uuid.uuid4 entropy)) in
    name ++ "-" ++ seed ++ "-" ++ marker ++ "." ++ ext
  else v.

(** [LFN(protocol=..., tracer_id=..., job_id=..., source=...,
    relative_path=...)]: the validator runs on [relative_path]. *)
Definition LFN_init (entropy : N) (protocol : ProtocolEnum)
    (tracer_id : string) (job_id : Z) (source : KnowledgeSourceEnum)
    (relative_path : string) : LFN :=
  {| protocol := protocol;
     tracer_id := tracer_id;
     job_id := job_id;
     source := source;
     relative_path :=
       relative_path_must_be_alphanumberic_underscores_backslashes
         entropy relative_path |}.

(** [model_dump()] in JSON mode: the fields in declaration order,
    enum members by their value. *)
Definition model_dump (x : LFN) : Json.jobject :=
  [ ("protocol", Json.JString (ProtocolEnum_value (protocol x)));
    ("tracer_id", Json.JString (tracer_id x));
    ("job_id", Json.JInt (job_id x));
    ("source", Json.JString (KnowledgeSourceEnum_value (source x)));
    ("relative_path", Json.JString (relative_path x)) ].

(** [LFN.to_json]: [model_dump_json()]. *)
Definition to_json (x : LFN) : string := Json.dumps (model_dump x).

Definition as_string (v : option Json.jvalue) : option string :=
  match v with
  | Some (Json.JString s) => Some s
  | _ => None
  end.

Definition as_int (v : option Json.jvalue) : option Z :=
  match v with
  | Some (Json.JInt z) => Some z
  | _ => None
  end.

Definition as_enum {E : Type} (of_value : string -> option E)
    (v : option Json.jvalue) : option E :=
  match as_string v with
  | Some s => of_value s
  | None => None
  end.

(** Validation of a loaded object against the fields of [LFN]; the
    [relative_path] validator runs on the loaded string. *)
Definition model_validate (entropy : N) (o : Json.jobject) : res LFN :=
  let protocol := as_enum ProtocolEnum_of_value (Json.get "protocol" o) in
  let tracer_id := as_string (Json.get "tracer_id" o) in
  let job_id := as_int (Json.get "job_id" o) in
  let source :=
    as_enum KnowledgeSourceEnum_of_value (Json.get "source" o) in
  let relative_path := as_string (Json.get "relative_path" o) in
  match protocol, tracer_id, job_id, source, relative_path with
  | Some p, Some t, Some j, Some s, Some r =>
      Ret (LFN_init entropy p t j s r)
  | _, _, _, _, _ =>
      Raise (ValidationError
               (field_missing "protocol" protocol
                ++ field_missing "tracer_id" tracer_id
                ++ field_missing "job_id" job_id
                ++ field_missing "source" source
                ++ field_missing "relative_path" relative_path))
  end.

(** [LFN.from_json]: [model_validate_json(json_data=json_str)]. *)
Definition from_json (entropy : N) (json_str : string) : res LFN :=
  match Json.loads json_str with
  | Some o => model_validate entropy o
  | None => Raise (ValidationError ["json_invalid"])
  end.

(** *** [class SourceData] and the other entities the repositories use *)

Record SourceData : Type := {
  sd_created_at : datetime;
  sd_updated_at : datetime;
  sd_deleted : bool;
  sd_deleted_at : option datetime;
  sd_id : Z;
  sd_name : string;
  sd_type : string;
  sd_lfn : LFN;
  sd_status : SourceDataStatusEnum
}.

(** The keyword arguments of a [SourceData(...)] call.  A keyword that
    the call does not pass is [None]; [kw_lfn] holds the outcome of
    validating the passed value as an [LFN]; [kw_extra] lists the
    keywords that are no field of the model (they are ignored). *)
Record SourceData_kwargs : Type := {
  kw_created_at : option datetime;
  kw_updated_at : option datetime;
  kw_deleted : option bool;
  kw_deleted_at : option (option datetime);
  kw_id : option Z;
  kw_name : option string;
  kw_type : option string;
  kw_lfn : option (res LFN);
  kw_status : option SourceDataStatusEnum;
  kw_extra : list string
}.

(** The fields whose validation fails, in declaration order (the base
    classes' fields first). *)
Definition SourceData_errors (kw : SourceData_kwargs) : list string :=
  field_missing "created_at" (kw_created_at kw)
  ++ field_missing "updated_at" (kw_updated_at kw)
  ++ field_missing "deleted" (kw_deleted kw)
  ++ field_missing "deleted_at" (kw_deleted_at kw)
  ++ field_missing "id" (kw_id kw)
  ++ field_missing "name" (kw_name kw)
  ++ field_missing "type" (kw_type kw)
  ++ field_invalid "lfn" (kw_lfn kw)
  ++ field_missing "status" (kw_status kw).

(** [SourceData(...)] on the keywords [kw]: every field is required
    (none has a default);
    the model is built when no field is in error, and a
    [ValidationError] naming the fields in error is raised otherwise. *)
Definition SourceData_init (kw : SourceData_kwargs) : res SourceData :=
  match kw_created_at kw, kw_updated_at kw, kw_deleted kw,
        kw_deleted_at kw, kw_id kw, kw_name kw, kw_type kw,
        kw_lfn kw, kw_status kw with
  | Some created_at, Some updated_at, Some deleted, Some deleted_at,
    Some id, Some name, Some type, Some (Ret lfn), Some status =>
      Ret {| sd_created_at := created_at;
             sd_updated_at := updated_at;
             sd_deleted := deleted;
             sd_deleted_at := deleted_at;
             sd_id := id;
             sd_name := name;
             sd_type := type;
             sd_lfn := lfn;
             sd_status := status |}
  | _, _, _, _, _, _, _, _, _ =>
      Raise (ValidationError (SourceData_errors kw))
  end.

Record ResearchContext : Type := {
  rc_created_at : datetime;
  rc_updated_at : datetime;
  rc_deleted : bool;
  rc_deleted_at : option datetime;
  rc_id : Z;
  rc_title : string;
  rc_description : string
}.

(** The class objects handed to the error factory. *)
Definition SourceData_class : class_obj := model_class "SourceData".
Definition ResearchContext_class : class_obj :=
  model_class "ResearchContext".

Record Conversation : Type := {
  cv_created_at : datetime;
  cv_updated_at : datetime;
  cv_deleted : bool;
  cv_deleted_at : option datetime;
  cv_id : Z;
  cv_title : string
}.

(** A character that the validator keeps and that ends neither a
    directory nor a name: any allowed character but the dot and the
    slash. *)
Definition name_char (c : ascii) : bool :=
  allowed_char c && negb (Ascii.eqb c ".") && negb (Ascii.eqb c "/").

End Models.

(* ===================================================================== *)
(** ** [lib/core/sdk/dto.py]                                             *)
(* ===================================================================== *)

Module Dto.

(** [class BaseDTO]: [D] is the type of the [data] payload of the
    concrete DTO class (one entity, or a list of entities). *)
Record BaseDTO (D : Type) : Type := {
  status : bool;
  errorCode : option Z;
  errorMessage : option string;
  errorName : option string;
  errorType : option string;
  data : option D
}.
Arguments status {D} _.
Arguments errorCode {D} _.
Arguments errorMessage {D} _.
Arguments errorName {D} _.
Arguments errorType {D} _.
Arguments data {D} _.

(** The locals of the factory that only some branches bind. *)
Record locals : Type := {
  message : option string;
  name : option string;
  type : option string
}.

Section Factory.

(** [a is b] on two [str] objects: object identity, which the
    language leaves to the interpreter. *)
Variable is_same_object : string -> string -> bool.

(** Payload type of the DTO class passed as [DTO]. *)
Context {D : Type}.

Definition generate_error_dto_and_message
    (entity : class_obj) (errorCode : Z) (attribute : option string)
    (attribute_value : option value) (missing_data : option string)
  : res (BaseDTO D) :=
  if negb ((-3 <=? errorCode) && (errorCode <? 0))%Z then
    Raise (ValueError
             ("Error code " ++ str_of_int errorCode ++ " is not valid"))
  else
  let! _ :=
    match attribute with
    | Some a =>
        if negb (in_list (lower a) ["id"; "sid"]) then
          Raise (ValueError ("Attribute " ++ a ++ " is not valid"))
        else Ret tt
    | None => Ret tt
    end in
  let entity_name := cls_class_name entity in
  let attribute_name : option string :=
    match attribute with
    | Some a => Some (capitalize (lower a))
    | None => None
    end in
  (* [attribute is not None and attribute.lower() is "id" or "sid"]
     parses as [(... and ...) or "sid"] *)
  let! attribute_name :=
    if match attribute with
       | Some a => is_same_object (lower a) "id"
       | None => false
       end
       || truthy_str "sid"
    then
      match attribute with
      | Some a => Ret (Some (upper a))
      | None =>
          Raise (AttributeError
                   "'NoneType' object has no attribute 'upper'")
      end
    else Ret attribute_name in
  let attribute_value : option string :=
    match attribute_value with
    | Some v => Some (str v)
    | None => None
    end in
  let l := {| message := None; name := None; type := None |} in
  let! l :=
    if (errorCode =? -1)%Z then
      match attribute with
      | None =>
          Raise (ValueError
                   ("Attribute cannot be None for error code "
                    ++ str_of_int errorCode))
      | Some _ =>
          let! an := read_local "attribute_name" attribute_name in
          Ret {| message := Some (upper an ++ " cannot be None");
                 name := Some (upper an ++ " not provided");
                 type := Some (capitalize an ++ "NotProvided") |}
      end
    else Ret l in
  let! l :=
    if (errorCode =? -2)%Z then
      match attribute with
      | None =>
          Raise (ValueError
                   ("Attribute cannot be None for error code "
                    ++ str_of_int errorCode))
      | Some _ =>
          match attribute_value with
          | None =>
              Raise (ValueError
                       ("Attribute value cannot be None for error code "
                        ++ str_of_int errorCode))
          | Some av =>
              let! an := read_local "attribute_name" attribute_name in
              Ret {| message :=
                       Some ("with " ++ an ++ " " ++ av
                             ++ " not found in the database");
                     name := Some "not found";
                     type := Some "NotFound" |}
          end
      end
    else Ret l in
  let! l :=
    if (errorCode =? -3)%Z then
      match attribute with
      | None =>
          Raise (ValueError
                   ("Attribute cannot be None for error code "
                    ++ str_of_int errorCode))
      | Some _ =>
          match missing_data with
          | None =>
              Raise (ValueError
                       ("Missing data cannot be None for error code "
                        ++ str_of_int errorCode))
          | Some md =>
              let! an := read_local "attribute_name" attribute_name in
              (* this branch binds [errorName] and [errorType], which
                 are overwritten below; [name] and [type] stay as
                 they were *)
              let errorName := "has no " ++ md in
              let errorType := "HasNo" ++ strip (title md) in
              Ret {| message :=
                       Some ("with " ++ an ++ " "
                             ++ fmt_opt attribute_value
                             ++ " has no " ++ md);
                     name := name l;
                     type := type l |}
          end
      end
    else Ret l in
  let! message := read_local "message" (message l) in
  let errorMessage := entity_name ++ " " ++ message in
  let! name := read_local "name" (name l) in
  let errorName := entity_name ++ " " ++ name in
  let! type := read_local "type" (type l) in
  let errorType := entity_name ++ type in
  Ret {| status := false;
         errorCode := Some errorCode;
         errorMessage := Some errorMessage;
         errorName := Some errorName;
         errorType := Some errorType;
         data := None |}.

End Factory.

(** The two shapes of an envelope: a success carries the data and no
    error field, an error carries the four error fields and no data. *)
Definition is_success {D : Type} (dto : BaseDTO D) : bool :=
  status dto
  && match data dto, errorCode dto, errorMessage dto, errorName dto,
           errorType dto with
     | Some _, None, None, None, None => true
     | _, _, _, _, _ => false
     end.

Definition is_error {D : Type} (dto : BaseDTO D) : bool :=
  negb (status dto)
  && match data dto, errorCode dto, errorMessage dto, errorName dto,
           errorType dto with
     | None, Some _, Some _, Some _, Some _ => true
     | _, _, _, _, _ => false
     end.

End Dto.

(* ===================================================================== *)
(** ** [lib/core/dto]: the concrete DTO classes                          *)
(* ===================================================================== *)

Module RepositoryDto.
Import Models Dto.

(** [data: List[SourceData] | List[None] | None] *)
Definition ListMessageSourcesDTO : Type := BaseDTO (list SourceData).

(** [data: ResearchContext | None] *)
Definition GetResearchContextDTO : Type := BaseDTO ResearchContext.

(** [data: List[Conversation] | None] *)
Definition ListResearchContextConversationsDTO : Type :=
  BaseDTO (list Conversation).

End RepositoryDto.

(* ===================================================================== *)
(** ** [lib/infrastructure/repository/sqla/sqla_message_repository.py]   *)
(* ===================================================================== *)

Module SqlaMessageRepository.
Import Models Dto RepositoryDto.

Section Repository.

Variable is_same_object : string -> string -> bool.

(** The ORM classes live in [repository/sqla/models.py].  The types
    of the [lfn] and [protocol] columns of a source-data row are
    left open, and so is what validating an [lfn] column value
    against the [LFN] field gives. *)
Variables SQLALfn SQLAProtocol : Type.
Variable validate_lfn : SQLALfn -> res LFN.

(** The entity class [MessageResponse], imported from the entity
    models. *)
Variable MessageResponse : class_obj.

Record SQLACitation : Type := {
  source_data_id : Z
}.

Record SQLAMessageResponse : Type := {
  citations : list SQLACitation
}.

Record SQLASourceData : Type := {
  row_created_at : datetime;
  row_updated_at : datetime;
  row_deleted : bool;
  row_deleted_at : option datetime;
  row_id : Z;
  row_name : string;
  row_type : string;
  row_lfn : SQLALfn;
  row_protocol : SQLAProtocol
}.

(** What the session can see: each table maps a primary key [id] to
    its row. *)
Record Session : Type := {
  message_responses : gmap Z SQLAMessageResponse;
  source_datas : gmap Z SQLASourceData
}.

(** The body of [for citation in sqla_message.citations], with the
    list [sources_list] built so far, followed by the final
    [return]. *)
Fixpoint for_citations (session : Session)
    (citations : list SQLACitation) (sources_list : list SourceData)
  : res ListMessageSourcesDTO :=
  match citations with
  | [] =>
      Ret {| status := true;
             errorCode := None;
             errorMessage := None;
             errorName := None;
             errorType := None;
             data := Some sources_list |}
  | citation :: rest =>
      match source_datas session !! source_data_id citation with
      | None =>
          generate_error_dto_and_message is_same_object
            SourceData_class (-2) (Some "ID")
            (Some (VInt (source_data_id citation))) None
      | Some sqla_source_data =>
          let! source_core :=
            SourceData_init
              {| kw_created_at := Some (row_created_at sqla_source_data);
                 kw_updated_at := Some (row_updated_at sqla_source_data);
                 kw_deleted := Some (row_deleted sqla_source_data);
                 kw_deleted_at := Some (row_deleted_at sqla_source_data);
                 kw_id := Some (row_id sqla_source_data);
                 kw_name := Some (row_name sqla_source_data);
                 kw_type := Some (row_type sqla_source_data);
                 kw_lfn := Some (validate_lfn (row_lfn sqla_source_data));
                 kw_status := None;
                 kw_extra := ["protocol"] |} in
          for_citations session rest (sources_list ++ [source_core])
      end
  end.

Definition list_message_sources (session : Session)
    (message_id : option Z) : res ListMessageSourcesDTO :=
  match message_id with
  | None =>
      generate_error_dto_and_message is_same_object
        MessageResponse (-1) (Some "ID") None None
  | Some message_id =>
      match message_responses session !! message_id with
      | None =>
          generate_error_dto_and_message is_same_object
            MessageResponse (-2) (Some "ID")
            (Some (VInt message_id)) None
      | Some sqla_message =>
          for_citations session (citations sqla_message) []
      end
  end.

End Repository.

End SqlaMessageRepository.

(* ===================================================================== *)
(** ** [.../repository/sqla/sqla_research_context_repository.py]         *)
(* ===================================================================== *)

Module SqlaResearchContextRepository.
Import Models Dto RepositoryDto.

Section Repository.

(** The ORM class and the row converter live in
    [repository/sqla/models.py] and [repository/sqla/utils.py]. *)
Variable SQLAResearchContext : Type.
Variable convert_sqla_research_context_to_core_research_context :
  SQLAResearchContext -> res ResearchContext.

(** What the session can see: the table maps a primary key [id] to
    its row; [self.session.get(SQLAResearchContext, id)] looks the
    key up. *)
Record Session : Type := {
  research_contexts : gmap Z SQLAResearchContext
}.

Definition get_research_context (session : Session)
    (research_context_id : Z) : res GetResearchContextDTO :=
  match research_contexts session !! research_context_id with
  | None =>
      let errorDTO : GetResearchContextDTO :=
        {| status := false;
           errorCode := Some (-1)%Z;
           errorMessage :=
             Some ("Research context "
                   ++ str_of_int research_context_id ++ " not found.");
           errorName := Some "ResearchContextNotFound";
           errorType := Some "ResearchContextNotFound";
           data := None |} in
      Ret errorDTO
  | Some sqla_research_context =>
      let! core_research_context :=
        convert_sqla_research_context_to_core_research_context
          sqla_research_context in
      Ret {| status := true;
             errorCode := None;
             errorMessage := None;
             errorName := None;
             errorType := None;
             data := Some core_research_context |}
  end.

(** The ORM class of a conversation, the [conversations] relationship
    of a research-context row and the row converter live in
    [repository/sqla/models.py] and [repository/sqla/utils.py]. *)
Variable SQLAConversation : Type.
Variable conversations : SQLAResearchContext -> list SQLAConversation.
Variable convert_sqla_conversation_to_core_conversation :
  SQLAConversation -> res Conversation.

(** The body of [for sqla_conversation in sqla_conversations], with
    the list [core_conversations] built so far. *)
Fixpoint for_conversations (sqla_conversations : list SQLAConversation)
    (core_conversations : list Conversation) : res (list Conversation) :=
  match sqla_conversations with
  | [] => Ret core_conversations
  | sqla_conversation :: rest =>
      let! core_conversation :=
        convert_sqla_conversation_to_core_conversation sqla_conversation in
      for_conversations rest (core_conversations ++ [core_conversation])
  end.

Definition list_conversations (session : Session)
    (research_context_id : Z) : res ListResearchContextConversationsDTO :=
  match research_contexts session !! research_context_id with
  | None =>
      let errorDTO : ListResearchContextConversationsDTO :=
        {| status := false;
           errorCode := Some (-1)%Z;
           errorMessage :=
             Some ("Research context "
                   ++ str_of_int research_context_id ++ " not found.");
           errorName := Some "ResearchContextNotFound";
           errorType := Some "ResearchContextNotFound";
           data := None |} in
      Ret errorDTO
  | Some sqla_research_context =>
      let sqla_conversations := conversations sqla_research_context in
      let! core_conversations := for_conversations sqla_conversations [] in
      Ret {| status := true;
             errorCode := None;
             errorMessage := None;
             errorName := None;
             errorType := None;
             data := Some core_conversations |}
  end.

End Repository.

End SqlaResearchContextRepository.

(* ===================================================================== *)
(** * Properties                                                         *)
(* ===================================================================== *)

Import Models Dto RepositoryDto.

(** The [relative_path] validator is the [canonicalize] of the
    specification; the statements below use that name. *)
Abbreviation canonicalize :=
  relative_path_must_be_alphanumberic_underscores_backslashes.

(** ** Strings *)

Lemma append_empty_r (s : string) : s ++ EmptyString = s.
Proof. induction s as [|c s IH]; simpl; [reflexivity | now rewrite IH]. Qed.

Lemma append_cons (c : ascii) (a b : string) :
  String c a ++ b = String c (a ++ b).
Proof. reflexivity. Qed.

Lemma append_assoc (a b c : string) : (a ++ b) ++ c = a ++ (b ++ c).
Proof. induction a as [|x a IH]; simpl; [reflexivity | now rewrite IH]. Qed.

Lemma append_length (a b : string) :
  String.length (a ++ b) = String.length a + String.length b.
Proof. induction a as [|x a IH]; simpl; [reflexivity | now rewrite IH]. Qed.

Lemma all_str_app (p : ascii -> bool) (a b : string) :
  all_str p (a ++ b) = all_str p a && all_str p b.
Proof.
  induction a as [|x a IH]; simpl; [reflexivity|].
  rewrite IH. apply andb_assoc.
Qed.

Lemma all_str_filter (p : ascii -> bool) (s : string) :
  all_str p (filter_str p s) = true.
Proof.
  induction s as [|x s IH]; simpl; [reflexivity|].
  destruct (p x) eqn:Hx; simpl; [rewrite Hx|]; exact IH.
Qed.

Lemma all_str_weaken (p q : ascii -> bool) (s : string) :
  (forall c, p c = true -> q c = true) ->
  all_str p s = true -> all_str q s = true.
Proof.
  intros Hpq. induction s as [|x s IH]; simpl; [reflexivity|].
  intros [Hx Hs]%andb_true_iff. rewrite (Hpq _ Hx). simpl. auto.
Qed.

Lemma all_str_substring (p : ascii -> bool) (n m : nat) (s : string) :
  all_str p s = true -> all_str p (substring n m s) = true.
Proof.
  revert n m. induction s as [|x s IH]; intros [|n] [|m]; simpl; auto.
  - intros [Hx Hs]%andb_true_iff. rewrite Hx. simpl. auto.
  - intros [_ Hs]%andb_true_iff. auto.
  - intros [_ Hs]%andb_true_iff. auto.
Qed.

Lemma all_str_replace_empty (p : ascii -> bool) (old : ascii) (s : string) :
  all_str p s = true -> all_str p (replace old EmptyString s) = true.
Proof.
  induction s as [|x s IH]; simpl; [reflexivity|].
  intros [Hx Hs]%andb_true_iff.
  destruct (Ascii.eqb x old); simpl; [|rewrite Hx; simpl]; auto.
Qed.

(** [split] never gives the empty list, so the defaults of [hd] and
    [last] are never used. *)
Lemma split_nonempty (sep : ascii) (s : string) : split sep s <> [].
Proof.
  destruct s as [|c s]; simpl; [discriminate|].
  destruct (Ascii.eqb c sep); [discriminate|].
  destruct (split sep s); discriminate.
Qed.

(** The first piece of a split is a prefix of the string. *)
Lemma split_hd_prefix (sep : ascii) (s : string) :
  exists t, s = hd EmptyString (split sep s) ++ t.
Proof.
  induction s as [|c s [t IH]]; simpl.
  - exists EmptyString. reflexivity.
  - destruct (Ascii.eqb c sep).
    + exists (String c s). reflexivity.
    + destruct (split sep s) as [|h l]; simpl in *.
      * exists s. reflexivity.
      * exists t. now rewrite <- IH.
Qed.

Lemma split_single (sep : ascii) (s h : string) :
  split sep s = [h] -> h = s.
Proof.
  revert h. induction s as [|c s IH]; intros h; simpl.
  - now intros [= <-].
  - destruct (Ascii.eqb c sep).
    + intros [= _ E]. now apply split_nonempty in E.
    + destruct (split sep s) as [|h' l] eqn:E; [now apply split_nonempty in E|].
      intros [= <- ->]. now rewrite (IH h').
Qed.

Lemma last_cons_cons {A : Type} (x y : A) (l : list A) (d : A) :
  last (x :: y :: l) d = last (y :: l) d.
Proof. reflexivity. Qed.

(** The last piece of a split is a suffix of the string. *)
Lemma split_last_suffix (sep : ascii) (s : string) :
  exists t, s = t ++ last (split sep s) EmptyString.
Proof.
  induction s as [|c s [t IH]].
  - exists EmptyString. reflexivity.
  - simpl split. destruct (Ascii.eqb c sep).
    + exists (String c t).
      destruct (split sep s) as [|h l] eqn:E; [now apply split_nonempty in E|].
      rewrite last_cons_cons, append_cons. now rewrite <- IH.
    + destruct (split sep s) as [|h l] eqn:E; [now apply split_nonempty in E|].
      destruct l as [|h' l].
      * exists EmptyString. apply split_single in E. now subst h.
      * exists (String c t). rewrite last_cons_cons.
        rewrite last_cons_cons in IH. rewrite append_cons. now rewrite <- IH.
Qed.

Lemma prefix_cons (p x : ascii) (ps r : string) :
  prefix (String p ps) (String x r) = Ascii.eqb p x && prefix ps r.
Proof.
  simpl. destruct (ascii_dec p x) as [->|Hne].
  - now rewrite Ascii.eqb_refl.
  - apply Ascii.eqb_neq in Hne. now rewrite Hne.
Qed.

Lemma prefix_app_l (pat a b : string) :
  prefix pat a = true -> prefix pat (a ++ b) = true.
Proof.
  revert a. induction pat as [|p ps IH]; intros [|x a]; try easy.
  - now destruct b.
  - rewrite append_cons, !prefix_cons.
    intros [-> H]%andb_true_iff. simpl. auto.
Qed.

Lemma prefix_self_app (pat b : string) : prefix pat (pat ++ b) = true.
Proof.
  induction pat as [|p ps IH]; [now destruct b|].
  rewrite append_cons, prefix_cons, Ascii.eqb_refl. exact IH.
Qed.

(** No occurrence of [pat] reaches across a character that [pat] does
    not have. *)
Lemma prefix_app_sep (pat a b : string) (c : ascii) :
  absent_from c pat = true ->
  prefix pat (a ++ String c b) = prefix pat a.
Proof.
  unfold absent_from. revert a.
  induction pat as [|p ps IH]; intros a H.
  - now destruct a.
  - simpl in H. apply andb_true_iff in H as [Hp Hps].
    destruct a as [|x a].
    + change (EmptyString ++ String c b) with (String c b).
      rewrite prefix_cons. apply negb_true_iff in Hp. now rewrite Hp.
    + rewrite append_cons, !prefix_cons. now rewrite IH.
Qed.

Lemma occurrences_empty (p : ascii) (ps : string) :
  occurrences (String p ps) EmptyString = 0.
Proof. reflexivity. Qed.

Lemma occurrences_cons (pat : string) (x : ascii) (s : string) :
  occurrences pat (String x s)
  = (if prefix pat (String x s) then 1 else 0) + occurrences pat s.
Proof. reflexivity. Qed.

Lemma occurrences_app_sep (p : ascii) (ps a b : string) (c : ascii) :
  absent_from c (String p ps) = true ->
  occurrences (String p ps) (a ++ String c b)
  = occurrences (String p ps) a + occurrences (String p ps) b.
Proof.
  intros H. induction a as [|x a IH].
  - change (EmptyString ++ String c b) with (String c b).
    rewrite occurrences_cons, occurrences_empty.
    change (String c b) with (EmptyString ++ String c b) at 1.
    now rewrite prefix_app_sep.
  - rewrite append_cons, !occurrences_cons, IH.
    rewrite <- append_cons, prefix_app_sep by exact H. lia.
Qed.

(** A string without the first character of [pat] has no occurrence. *)
Lemma occurrences_absent (p : ascii) (ps s : string) :
  absent_from p s = true -> occurrences (String p ps) s = 0.
Proof.
  unfold absent_from. induction s as [|x s IH]; [reflexivity|].
  simpl all_str. intros [Hx Hs]%andb_true_iff.
  rewrite occurrences_cons, prefix_cons, (IH Hs).
  apply negb_true_iff in Hx. rewrite Ascii.eqb_sym in Hx. now rewrite Hx.
Qed.

Lemma contains_cons (pat : string) (x : ascii) (s : string) :
  contains pat (String x s) = prefix pat (String x s) || contains pat s.
Proof. reflexivity. Qed.

Lemma occurrences_contains (pat s : string) :
  contains pat s = false <-> occurrences pat s = 0.
Proof.
  induction s as [|x s IH].
  - destruct pat; simpl; split; intros H; try reflexivity; discriminate.
  - rewrite contains_cons, occurrences_cons, orb_false_iff, IH.
    destruct (prefix pat (String x s)); split.
    + intros [H _]. discriminate.
    + lia.
    + intros [_ H]. lia.
    + intros H. split; [reflexivity | lia].
Qed.

Lemma contains_app_l (pat a b : string) :
  contains pat a = true -> contains pat (a ++ b) = true.
Proof.
  induction a as [|x a IH].
  - simpl. rewrite orb_false_r. intros H.
    destruct pat; [now destruct b | discriminate].
  - rewrite append_cons, !contains_cons.
    intros [H|H]%orb_true_iff; apply orb_true_iff.
    + left. rewrite <- append_cons. now apply prefix_app_l.
    + right. auto.
Qed.

Lemma contains_app_r (pat a b : string) :
  contains pat b = true -> contains pat (a ++ b) = true.
Proof.
  intros H. induction a as [|x a IH]; [exact H|].
  rewrite append_cons, contains_cons, IH. apply orb_true_r.
Qed.

Lemma contains_prefix (pat s : string) :
  prefix pat s = true -> contains pat s = true.
Proof. intros H. destruct s; cbn [contains]; now rewrite H. Qed.

Lemma contains_self_app (pat b : string) : contains pat (pat ++ b) = true.
Proof. apply contains_prefix, prefix_self_app. Qed.

Lemma contains_false_app_l (pat a b : string) :
  contains pat (a ++ b) = false -> contains pat a = false.
Proof.
  intros H. destruct (contains pat a) eqn:E; [|reflexivity].
  now rewrite (contains_app_l _ _ b E) in H.
Qed.

Lemma contains_false_app_r (pat a b : string) :
  contains pat (a ++ b) = false -> contains pat b = false.
Proof.
  intros H. destruct (contains pat b) eqn:E; [|reflexivity].
  now rewrite (contains_app_r _ a _ E) in H.
Qed.

(** ** The rendered UUID *)

Lemma hex_char_is_hex (b3 b2 b1 b0 : bool) :
  Uuid.is_hex_or_dash (Uuid.hex_char b3 b2 b1 b0) = true.
Proof. destruct b3, b2, b1, b0; reflexivity. Qed.

Lemma hex_digits_are_hex (n : N) (count : nat) :
  all_str Uuid.is_hex_or_dash (Uuid.hex_digits n count) = true.
Proof.
  induction count as [|k IH]; [reflexivity|].
  cbn [Uuid.hex_digits all_str]. unfold Uuid.nibble.
  now rewrite hex_char_is_hex, IH.
Qed.

Lemma uuid_to_str_chars (u : Uuid.UUID) :
  all_str Uuid.is_hex_or_dash (Uuid.to_str u) = true.
Proof.
  unfold Uuid.to_str, Uuid.hex32.
  repeat (rewrite all_str_app; apply andb_true_iff; split);
    try reflexivity;
    apply all_str_substring, hex_digits_are_hex.
Qed.

Lemma hex_or_dash_allowed (c : ascii) :
  Uuid.is_hex_or_dash c = true -> allowed_char c = true.
Proof.
  destruct c as [[] [] [] [] [] [] [] []]; vm_compute; intros H;
    first [reflexivity | discriminate H].
Qed.

Lemma hex_or_dash_not_s (c : ascii) :
  Uuid.is_hex_or_dash c = true -> negb (Ascii.eqb c "s") = true.
Proof.
  destruct c as [[] [] [] [] [] [] [] []]; vm_compute; intros H;
    first [reflexivity | discriminate H].
Qed.

(** ** The [relative_path] validator *)

(** The seed spliced into the path: the hyphen-free rendering of the
    drawn UUID. *)
Lemma seed_chars (entropy : N) :
  all_str Uuid.is_hex_or_dash
    (replace "-" EmptyString (Uuid.to_str (Uuid.uuid4 entropy))) = true.
Proof. apply all_str_replace_empty, uuid_to_str_chars. Qed.

(** What the validator returns on a path without the marker. *)
Lemma canonicalize_fresh (entropy : N) (v : string) :
  contains marker v = false ->
  canonicalize entropy v
  = hd EmptyString (split "." (re_sub_disallowed (Posixpath.basename v)))
    ++ String "-"
         (replace "-" EmptyString (Uuid.to_str (Uuid.uuid4 entropy))
          ++ String "-"
               (marker
                ++ String "."
                     (last (split "."
                              (re_sub_disallowed (Posixpath.basename v)))
                           EmptyString))).
Proof.
  intros H. unfold canonicalize.
  rewrite H. reflexivity.
Qed.

(** What the validator returns on a path that has the marker. *)
Lemma canonicalize_marked (entropy : N) (v : string) :
  contains marker v = true -> canonicalize entropy v = v.
Proof.
  intros H. unfold canonicalize.
  now rewrite H.
Qed.

Lemma canonicalize_has_marker (entropy : N) (v : string) :
  contains marker (canonicalize entropy v) = true.
Proof.
  destruct (contains marker v) eqn:H.
  - now rewrite canonicalize_marked.
  - rewrite canonicalize_fresh by exact H.
    apply contains_app_r.
    change (String "-" ?x) with ("-" ++ x). apply contains_app_r.
    apply contains_app_r.
    change (String "-" ?x) with ("-" ++ x). apply contains_app_r.
    apply contains_self_app.
Qed.

Lemma split_hd_all (p : ascii -> bool) (sep : ascii) (s : string) :
  all_str p s = true -> all_str p (hd EmptyString (split sep s)) = true.
Proof.
  intros H. destruct (split_hd_prefix sep s) as [t E].
  rewrite E, all_str_app in H. now apply andb_true_iff in H.
Qed.

Lemma split_last_all (p : ascii -> bool) (sep : ascii) (s : string) :
  all_str p s = true ->
  all_str p (last (split sep s) EmptyString) = true.
Proof.
  intros H. destruct (split_last_suffix sep s) as [t E].
  rewrite E, all_str_app in H. now apply andb_true_iff in H.
Qed.

Lemma canonicalize_fresh_whitelist (entropy : N) (v : string) :
  contains marker v = false ->
  all_str allowed_char (canonicalize entropy v) = true.
Proof.
  intros H. rewrite canonicalize_fresh by exact H.
  pose proof (all_str_filter allowed_char (Posixpath.basename v)) as Hv.
  fold (re_sub_disallowed (Posixpath.basename v)) in Hv.
  rewrite all_str_app. cbn [all_str]. rewrite all_str_app. cbn [all_str].
  rewrite all_str_app. cbn [all_str].
  rewrite (split_hd_all _ _ _ Hv), (split_last_all _ _ _ Hv).
  rewrite (all_str_weaken _ _ _ hex_or_dash_allowed (seed_chars entropy)).
  reflexivity.
Qed.

(** Occurrences of the marker in a freshly built path: the spliced one,
    and those that the name and the extension bring along. *)
Lemma canonicalize_fresh_occurrences (entropy : N) (v : string) :
  contains marker v = false ->
  occurrences marker (canonicalize entropy v)
  = occurrences marker
      (hd EmptyString (split "." (re_sub_disallowed (Posixpath.basename v))))
    + 1
    + occurrences marker
        (last (split "." (re_sub_disallowed (Posixpath.basename v)))
              EmptyString).
Proof.
  intros H. rewrite canonicalize_fresh by exact H.
  pose proof (all_str_weaken _ _ _ hex_or_dash_not_s (seed_chars entropy))
    as Hseed.
  apply (occurrences_absent "s" "damarker") in Hseed.
  unfold marker.
  rewrite !occurrences_app_sep by reflexivity.
  rewrite Hseed.
  change (occurrences "sdamarker" "sdamarker") with 1. lia.
Qed.

(** C5 (amended).  For every string [p] that does not already contain
    the marker token, every character of the canonical path is in the
    set [a-zA-Z0-9_./-] and the marker token occurs in it at least once;
    it occurs exactly once whenever the sanitized base name of [p]
    (directories stripped, characters outside the set removed) does not
    itself contain the token.  A [p] that already contains the token is
    returned as it is. *)
Theorem C5_fresh_path_whitelist_and_marker (entropy : N) (p : string) :
  (contains marker p = false ->
   all_str allowed_char (canonicalize entropy p) = true
   /\ 1 <= occurrences marker (canonicalize entropy p)
   /\ (contains marker (re_sub_disallowed (Posixpath.basename p)) = false ->
       occurrences marker (canonicalize entropy p) = 1))
  /\ (contains marker p = true -> canonicalize entropy p = p).
Proof.
  split; [|apply canonicalize_marked].
  intros H. split; [now apply canonicalize_fresh_whitelist|].
  rewrite canonicalize_fresh_occurrences by exact H.
  split; [lia|]. intros Hclean.
  set (v := re_sub_disallowed (Posixpath.basename p)) in *.
  destruct (split_hd_prefix "." v) as [t Ehd].
  destruct (split_last_suffix "." v) as [t' Elast].
  pose proof Hclean as Hname. rewrite Ehd in Hname.
  apply contains_false_app_l, occurrences_contains in Hname.
  pose proof Hclean as Hext. rewrite Elast in Hext.
  apply contains_false_app_r, occurrences_contains in Hext.
  rewrite Hname, Hext. reflexivity.
Qed.

Lemma C5_fresh_path_witness :
  contains marker "/tmp/reports/final.report.pdf" = false
  /\ all_str allowed_char
       (canonicalize 2024 "/tmp/reports/final.report.pdf") = true
  /\ occurrences marker
       (canonicalize 2024 "/tmp/reports/final.report.pdf") = 1.
Proof.
  split; [reflexivity|].
  destruct (C5_fresh_path_whitelist_and_marker
              2024 "/tmp/reports/final.report.pdf") as [Hfresh _].
  destruct (Hfresh eq_refl) as (Hw & _ & Hone).
  split; [exact Hw | apply Hone; reflexivity].
Defined.

(** C5 as stated fails.  A path that already carries the marker is
    returned as it is, with any character it has and with as many
    markers as it has; and a marker that only shows once the path is
    sanitized is kept next to the spliced one. *)
Lemma C5_marked_path_counterexample :
  all_str allowed_char (canonicalize 0 "my report (v2) sdamarker.txt") = false
  /\ occurrences marker (canonicalize 0 "sdamarker-sdamarker.txt") = 2
  /\ occurrences marker (canonicalize 0 "sda marker.txt") = 2.
Proof. repeat split; reflexivity. Qed.

(** C8.  The validator is idempotent, whatever entropy either call
    draws, and a path that already contains the marker token is returned
    unchanged. *)
Theorem C8_canonicalize_idempotent :
  (forall (entropy entropy' : N) (p : string),
      canonicalize entropy' (canonicalize entropy p)
      = canonicalize entropy p)
  /\ (forall (entropy : N) (p : string),
         contains marker p = true -> canonicalize entropy p = p).
Proof.
  split.
  - intros entropy entropy' p.
    apply canonicalize_marked, canonicalize_has_marker.
  - intros entropy p. apply canonicalize_marked.
Qed.

Lemma C8_canonicalize_idempotent_witness :
  contains marker "already-x1y2z3-sdamarker.txt" = true
  /\ canonicalize 7 "already-x1y2z3-sdamarker.txt"
     = "already-x1y2z3-sdamarker.txt"
  /\ canonicalize 8 (canonicalize 7 "/tmp/reports/final.report.pdf")
     = canonicalize 7 "/tmp/reports/final.report.pdf".
Proof.
  destruct C8_canonicalize_idempotent as [Hidem Hmarked].
  split; [reflexivity|].
  split; [apply Hmarked; reflexivity | apply Hidem].
Defined.

(** ** The error-envelope factory *)

Lemma lower_i (c : ascii) : lower_char c = "i"%char -> upper_char c = "I"%char.
Proof.
  destruct c as [[] [] [] [] [] [] [] []]; vm_compute; intros H;
    first [reflexivity | discriminate H].
Qed.

Lemma lower_d (c : ascii) : lower_char c = "d"%char -> upper_char c = "D"%char.
Proof.
  destruct c as [[] [] [] [] [] [] [] []]; vm_compute; intros H;
    first [reflexivity | discriminate H].
Qed.

Lemma lower_s (c : ascii) : lower_char c = "s"%char -> upper_char c = "S"%char.
Proof.
  destruct c as [[] [] [] [] [] [] [] []]; vm_compute; intros H;
    first [reflexivity | discriminate H].
Qed.

(** The allow-listed names, in any letter case, are the ones whose
    upper-case form is [ID] or [SID]. *)
Lemma allow_listed_upper (a : string) :
  in_list (lower a) ["id"; "sid"] = true ->
  upper a = "ID" \/ upper a = "SID".
Proof.
  unfold in_list. simpl existsb. rewrite orb_false_r.
  intros [H|H]%orb_true_iff; apply String.eqb_eq in H.
  - left. destruct a as [|c1 [|c2 [|c3 a]]]; try discriminate H.
    injection H as H1 H2.
    unfold upper. simpl. now rewrite (lower_i _ H1), (lower_d _ H2).
  - right. destruct a as [|c1 [|c2 [|c3 [|c4 a]]]]; try discriminate H.
    injection H as H1 H2 H3.
    unfold upper. simpl.
    now rewrite (lower_s _ H1), (lower_i _ H2), (lower_d _ H3).
Qed.

Section FactoryFacts.

Variable is_same_object : string -> string -> bool.
Context {D : Type}.

#[local] Arguments in_list : simpl never.

(** An error code outside [range(-3, 0)] is refused first. *)
Lemma factory_bad_code entity errorCode attribute attribute_value
    missing_data :
  (errorCode < -3 \/ 0 <= errorCode)%Z ->
  generate_error_dto_and_message (D:=D) is_same_object entity
    errorCode attribute attribute_value missing_data
  = Raise (ValueError
             ("Error code " ++ str_of_int errorCode ++ " is not valid")).
Proof.
  intros H. unfold generate_error_dto_and_message.
  replace ((-3 <=? errorCode) && (errorCode <? 0))%Z with false;
    [reflexivity|].
  symmetry. apply andb_false_iff. rewrite Z.leb_gt, Z.ltb_ge. lia.
Qed.

(** A name off the allow list is refused next. *)
Lemma factory_bad_attribute entity errorCode a attribute_value
    missing_data :
  (-3 <= errorCode < 0)%Z ->
  in_list (lower a) ["id"; "sid"] = false ->
  generate_error_dto_and_message (D:=D) is_same_object entity
    errorCode (Some a) attribute_value missing_data
  = Raise (ValueError ("Attribute " ++ a ++ " is not valid")).
Proof.
  intros Hc Ha. unfold generate_error_dto_and_message.
  replace ((-3 <=? errorCode) && (errorCode <? 0))%Z with true.
  - simpl. now rewrite Ha.
  - symmetry. apply andb_true_iff. rewrite Z.leb_le, Z.ltb_lt. lia.
Qed.

(** Without an attribute the call stops at [attribute.upper()]. *)
Lemma factory_no_attribute entity errorCode attribute_value
    missing_data :
  (-3 <= errorCode < 0)%Z ->
  generate_error_dto_and_message (D:=D) is_same_object entity
    errorCode None attribute_value missing_data
  = Raise (AttributeError "'NoneType' object has no attribute 'upper'").
Proof.
  intros Hc. unfold generate_error_dto_and_message.
  replace ((-3 <=? errorCode) && (errorCode <? 0))%Z with true.
  - reflexivity.
  - symmetry. apply andb_true_iff. rewrite Z.leb_le, Z.ltb_lt. lia.
Qed.

(** [MissingAttribute] with an allow-listed name. *)
Lemma factory_missing_attribute entity a attribute_value missing_data :
  in_list (lower a) ["id"; "sid"] = true ->
  generate_error_dto_and_message (D:=D) is_same_object entity
    (-1) (Some a) attribute_value missing_data
  = Ret {| status := false;
           errorCode := Some (-1)%Z;
           errorMessage :=
             Some (cls_class_name entity ++ " " ++ upper a
                   ++ " cannot be None");
           errorName :=
             Some (cls_class_name entity ++ " " ++ upper a
                   ++ " not provided");
           errorType :=
             Some (cls_class_name entity ++ capitalize (upper a)
                   ++ "NotProvided");
           data := None |}.
Proof.
  intros Ha. unfold generate_error_dto_and_message.
  simpl. rewrite Ha. simpl. rewrite orb_true_r. simpl.
  destruct (allow_listed_upper a Ha) as [-> | ->]; reflexivity.
Qed.

(** [NotFound] with an allow-listed name and a value. *)
Lemma factory_not_found entity a v missing_data :
  in_list (lower a) ["id"; "sid"] = true ->
  generate_error_dto_and_message (D:=D) is_same_object entity
    (-2) (Some a) (Some v) missing_data
  = Ret {| status := false;
           errorCode := Some (-2)%Z;
           errorMessage :=
             Some (cls_class_name entity ++ " with " ++ upper a ++ " "
                   ++ str v ++ " not found in the database");
           errorName := Some (cls_class_name entity ++ " not found");
           errorType := Some (cls_class_name entity ++ "NotFound");
           data := None |}.
Proof.
  intros Ha. unfold generate_error_dto_and_message.
  simpl. rewrite Ha. simpl. rewrite orb_true_r. reflexivity.
Qed.

Lemma factory_not_found_no_value entity a missing_data :
  in_list (lower a) ["id"; "sid"] = true ->
  generate_error_dto_and_message (D:=D) is_same_object entity
    (-2) (Some a) None missing_data
  = Raise (ValueError "Attribute value cannot be None for error code -2").
Proof.
  intros Ha. unfold generate_error_dto_and_message.
  simpl. rewrite Ha. simpl. rewrite orb_true_r. reflexivity.
Qed.

(** [MissingDependentData]: the branch binds [errorName] and
    [errorType] where the code after it reads [name] and [type]. *)
Lemma factory_missing_dependent_data entity a attribute_value md :
  in_list (lower a) ["id"; "sid"] = true ->
  generate_error_dto_and_message (D:=D) is_same_object entity
    (-3) (Some a) attribute_value (Some md)
  = Raise (UnboundLocalError "name").
Proof.
  intros Ha. unfold generate_error_dto_and_message.
  simpl. rewrite Ha. simpl. rewrite orb_true_r. reflexivity.
Qed.

Lemma factory_missing_dependent_data_no_name entity a attribute_value :
  in_list (lower a) ["id"; "sid"] = true ->
  generate_error_dto_and_message (D:=D) is_same_object entity
    (-3) (Some a) attribute_value None
  = Raise (ValueError "Missing data cannot be None for error code -3").
Proof.
  intros Ha. unfold generate_error_dto_and_message.
  simpl. rewrite Ha. simpl. rewrite orb_true_r. reflexivity.
Qed.

End FactoryFacts.

(** The outcome of the identity test in the factory never matters: its
    result is or-ed with the truthy string [sid].  Two calls with the
    same arguments give the same outcome under any interpreter. *)
Lemma factory_identity_irrelevant
    (is_same_object is_same_object' : string -> string -> bool) (D : Type)
    (entity : class_obj) (errorCode : Z) (attribute : option string)
    (attribute_value : option value) (missing_data : option string) :
  generate_error_dto_and_message (D:=D) is_same_object entity errorCode
    attribute attribute_value missing_data
  = generate_error_dto_and_message (D:=D) is_same_object' entity errorCode
      attribute attribute_value missing_data.
Proof.
  unfold generate_error_dto_and_message.
  cbn [truthy_str]. now rewrite !orb_true_r.
Qed.

(** C3.  With the MissingDependentData code and complete context the
    factory does not return: the branch for code -3 never binds [name],
    and reading it raises.  Evaluated on the class [SourceData], the
    attribute [ID] with value 7 and the missing data [lfn]. *)
Theorem C3_missing_dependent_data_call_raises :
  forall is_same_object : string -> string -> bool,
    generate_error_dto_and_message (D:=list SourceData) is_same_object
      SourceData_class (-3) (Some "ID") (Some (VInt 7)) (Some "lfn")
    = Raise (UnboundLocalError "name").
Proof.
  intros is_same_object. now apply factory_missing_dependent_data.
Qed.

(** C4.  The entity name that the factory composes into the message,
    the name and the type is the name of the class of the class object
    it was given, its metaclass, not the name of the entity:
    NotFound on [ResearchContext] with ID 42. *)
Theorem C4_not_found_message_names_metaclass :
  forall is_same_object : string -> string -> bool,
    generate_error_dto_and_message (D:=ResearchContext) is_same_object
      ResearchContext_class (-2) (Some "ID") (Some (VInt 42)) None
    = Ret {| status := false;
             errorCode := Some (-2)%Z;
             errorMessage :=
               Some "ModelMetaclass with ID 42 not found in the database";
             errorName := Some "ModelMetaclass not found";
             errorType := Some "ModelMetaclassNotFound";
             data := None |}.
Proof.
  intros is_same_object. now rewrite factory_not_found.
Qed.

(** C6.  A call with an error code outside -3..-1, with an attribute
    name off the allow list, without attribute, with code -2 and no
    attribute value, or with code -3 and no missing-data name raises
    and returns no DTO. *)
Theorem C6_contract_violation_raises
    (is_same_object : string -> string -> bool) (D : Type)
    (entity : class_obj) (errorCode : Z) (attribute : option string)
    (attribute_value : option value) (missing_data : option string) :
  (errorCode < -3 \/ 0 <= errorCode)%Z
  \/ (exists a, attribute = Some a
                /\ in_list (lower a) ["id"; "sid"] = false)
  \/ attribute = None
  \/ (errorCode = (-2)%Z /\ attribute_value = None)
  \/ (errorCode = (-3)%Z /\ missing_data = None) ->
  exists e : exn,
    generate_error_dto_and_message (D:=D) is_same_object entity
      errorCode
      attribute attribute_value missing_data
    = Raise e.
Proof.
  intros H.
  destruct (Z_lt_dec errorCode (-3)) as [Hlo|Hlo];
    [eexists; apply factory_bad_code; lia|].
  destruct (Z_le_dec 0 errorCode) as [Hhi|Hhi];
    [eexists; apply factory_bad_code; lia|].
  assert (Hrange : (-3 <= errorCode < 0)%Z) by lia.
  destruct attribute as [a|];
    [|eexists; now apply factory_no_attribute].
  destruct (in_list (lower a) ["id"; "sid"]) eqn:Ha;
    [|eexists; now apply factory_bad_attribute].
  destruct H as [H|[(a' & [= <-] & Ha')|[H|[[-> ->]|[-> ->]]]]].
  - lia.
  - congruence.
  - discriminate H.
  - eexists. now apply factory_not_found_no_value.
  - eexists. now apply factory_missing_dependent_data_no_name.
Qed.

Lemma C6_contract_violation_witness :
  exists e : exn,
    generate_error_dto_and_message (D:=ResearchContext) (fun _ _ => false)
      ResearchContext_class (-2) (Some "ID") None None
    = Raise e.
Proof.
  apply C6_contract_violation_raises.
  right. right. right. left. split; reflexivity.
Defined.

(** C10.  The attribute name is matched without regard to letter case:
    a name whose lower-case form is [id] or [sid] is accepted, and the
    MissingAttribute message then shows it in upper case ([ID] or
    [SID]) followed by [cannot be None]; any other name is refused with
    a [ValueError], whatever the (valid) error code. *)
Theorem C10_attribute_name_any_case
    (is_same_object : string -> string -> bool) (D : Type)
    (entity : class_obj) (a : string) :
  (in_list (lower a) ["id"; "sid"] = true ->
   (upper a = "ID" \/ upper a = "SID")
   /\ forall attribute_value missing_data,
        exists dto : BaseDTO D,
          generate_error_dto_and_message is_same_object entity (-1)
            (Some a) attribute_value missing_data
          = Ret dto
          /\ errorMessage dto
             = Some (cls_class_name entity ++ " " ++ upper a
                     ++ " cannot be None"))
  /\ (in_list (lower a) ["id"; "sid"] = false ->
      forall errorCode attribute_value missing_data,
        (-3 <= errorCode < 0)%Z ->
        generate_error_dto_and_message (D:=D) is_same_object entity
          errorCode (Some a) attribute_value missing_data
        = Raise (ValueError ("Attribute " ++ a ++ " is not valid"))).
Proof.
  split.
  - intros Ha. split; [now apply allow_listed_upper|].
    intros attribute_value missing_data. eexists. split.
    + now apply factory_missing_attribute.
    + reflexivity.
  - intros Ha errorCode attribute_value missing_data Hc.
    now apply factory_bad_attribute.
Qed.

Lemma C10_attribute_name_witness :
  in_list (lower "id") ["id"; "sid"] = true
  /\ in_list (lower "Name") ["id"; "sid"] = false
  /\ (exists dto : BaseDTO ResearchContext,
         generate_error_dto_and_message (fun _ _ => false)
           ResearchContext_class (-1) (Some "id") None None
         = Ret dto
         /\ errorMessage dto = Some "ModelMetaclass ID cannot be None")
  /\ generate_error_dto_and_message (D:=ResearchContext) (fun _ _ => false)
       ResearchContext_class (-1) (Some "Name") None None
     = Raise (ValueError "Attribute Name is not valid").
Proof.
  split; [reflexivity|]. split; [reflexivity|].
  split.
  - destruct (C10_attribute_name_any_case (fun _ _ => false)
                ResearchContext ResearchContext_class "id") as [Hyes _].
    destruct (Hyes eq_refl) as [_ Hdto].
    exact (Hdto None None).
  - destruct (C10_attribute_name_any_case (fun _ _ => false)
                ResearchContext ResearchContext_class "Name") as [_ Hno].
    apply (Hno eq_refl). lia.
Defined.

(** ** The repositories *)

(** A [SourceData(...)] call that passes no [status] raises. *)
Lemma SourceData_init_without_status (kw : SourceData_kwargs) :
  kw_status kw = None ->
  SourceData_init kw = Raise (ValidationError (SourceData_errors kw))
  /\ In "status" (SourceData_errors kw).
Proof.
  intros H. split.
  - unfold SourceData_init. rewrite H.
    destruct (kw_created_at kw), (kw_updated_at kw), (kw_deleted kw),
      (kw_deleted_at kw), (kw_id kw), (kw_name kw), (kw_type kw);
      try reflexivity.
    destruct (kw_lfn kw) as [[]|]; reflexivity.
  - unfold SourceData_errors. rewrite H.
    rewrite !in_app_iff. do 8 right. now left.
Qed.

Section MessageRepositoryFacts.
Import SqlaMessageRepository.

Variable is_same_object : string -> string -> bool.
Variables SQLALfn SQLAProtocol : Type.
Variable validate_lfn : SQLALfn -> res LFN.
Variable MessageResponse : class_obj.

(** A citation whose source data is in the store stops the loop: the
    entity built from the row lacks [status]. *)
Lemma for_citations_resolved
    (session : Session SQLALfn SQLAProtocol) citation rest sources_list
    row :
  source_datas _ _ session !! source_data_id citation = Some row ->
  exists fields,
    for_citations is_same_object SQLALfn SQLAProtocol validate_lfn
      session (citation :: rest) sources_list
    = Raise (ValidationError fields)
    /\ In "status" fields.
Proof.
  intros Hrow. cbn [for_citations]. rewrite Hrow.
  match goal with
  | |- context [SourceData_init ?kw] =>
      destruct (SourceData_init_without_status kw eq_refl) as [-> Hin];
      exists (SourceData_errors kw)
  end.
  split; [reflexivity | exact Hin].
Qed.

(** A first citation whose source data is not in the store ends the
    call with the factory's NotFound DTO. *)
Lemma for_citations_first_missing
    (session : Session SQLALfn SQLAProtocol) citation rest sources_list :
  source_datas _ _ session !! source_data_id citation = None ->
  for_citations is_same_object SQLALfn SQLAProtocol validate_lfn
    session (citation :: rest) sources_list
  = Ret {| status := false;
           errorCode := Some (-2)%Z;
           errorMessage :=
             Some ("ModelMetaclass with ID "
                   ++ str_of_int (source_data_id citation)
                   ++ " not found in the database");
           errorName := Some "ModelMetaclass not found";
           errorType := Some "ModelMetaclassNotFound";
           data := None |}.
Proof.
  intros Hrow. cbn [for_citations]. rewrite Hrow.
  now rewrite factory_not_found.
Qed.

(** The loop hands out a success DTO only when there is no citation
    left, and the DTO then holds exactly the list built so far. *)
Lemma for_citations_success
    (session : Session SQLALfn SQLAProtocol) cs sources_list dto :
  for_citations is_same_object SQLALfn SQLAProtocol validate_lfn
    session cs sources_list = Ret dto ->
  status dto = true ->
  cs = [] /\ data dto = Some sources_list.
Proof.
  destruct cs as [|citation rest].
  - intros [= <-] _. split; reflexivity.
  - destruct (source_datas _ _ session !! source_data_id citation)
      as [row|] eqn:Hrow.
    + destruct (for_citations_resolved session citation rest
                  sources_list row Hrow) as (fields & -> & _).
      discriminate.
    + rewrite for_citations_first_missing by exact Hrow.
      intros [= <-]. discriminate.
Qed.

(** No success DTO comes back while a citation is unresolved. *)
Lemma list_message_sources_no_partial_list
    (session : Session SQLALfn SQLAProtocol) message_id sqla_message
    citation dto :
  message_responses _ _ session !! message_id = Some sqla_message ->
  In citation (citations sqla_message) ->
  source_datas _ _ session !! source_data_id citation = None ->
  list_message_sources is_same_object SQLALfn SQLAProtocol validate_lfn
    MessageResponse session (Some message_id) = Ret dto ->
  status dto = false.
Proof.
  intros Hmsg Hin _ Hret. unfold list_message_sources in Hret.
  rewrite Hmsg in Hret.
  destruct (status dto) eqn:Hst; [|reflexivity].
  destruct (for_citations_success _ _ _ _ Hret Hst) as [Hnil _].
  rewrite Hnil in Hin. destruct Hin.
Qed.

End MessageRepositoryFacts.

(** C2.  A message with one citation whose source data is in the store:
    [list_message_sources] raises pydantic's [ValidationError] while it
    builds the entity (no [status] is passed), whatever the row holds
    and whatever the validation of its [lfn] column gives. *)
Theorem C2_resolved_citation_raises :
  forall (is_same_object : string -> string -> bool)
         (SQLALfn SQLAProtocol : Type) (validate_lfn : SQLALfn -> res LFN)
         (MessageResponse : class_obj)
         (row : SqlaMessageRepository.SQLASourceData SQLALfn SQLAProtocol),
  exists fields : list string,
    SqlaMessageRepository.list_message_sources is_same_object
      SQLALfn SQLAProtocol validate_lfn MessageResponse
      {| SqlaMessageRepository.message_responses :=
           {[ 1%Z :=
                {| SqlaMessageRepository.citations :=
                     [ {| SqlaMessageRepository.source_data_id := 10 |} ]
                |} ]};
         SqlaMessageRepository.source_datas := {[ 10%Z := row ]} |}
      (Some 1%Z)
    = Raise (ValidationError fields)
    /\ In "status" fields.
Proof.
  intros. unfold SqlaMessageRepository.list_message_sources.
  cbn [SqlaMessageRepository.message_responses].
  rewrite lookup_singleton_eq.
  cbn [SqlaMessageRepository.citations].
  apply for_citations_resolved with (row := row).
  cbn [SqlaMessageRepository.source_datas
       SqlaMessageRepository.source_data_id].
  apply lookup_singleton_eq.
Qed.

(** C7.  A message with two citations, the first resolved and the
    second referring to source data that is not in the store: the call
    raises at the first citation and never reaches the NotFound DTO of
    the second. *)
Theorem C7_missing_source_after_resolved_one_raises :
  forall (is_same_object : string -> string -> bool)
         (SQLALfn SQLAProtocol : Type) (validate_lfn : SQLALfn -> res LFN)
         (MessageResponse : class_obj)
         (row : SqlaMessageRepository.SQLASourceData SQLALfn SQLAProtocol),
  exists fields : list string,
    SqlaMessageRepository.list_message_sources is_same_object
      SQLALfn SQLAProtocol validate_lfn MessageResponse
      {| SqlaMessageRepository.message_responses :=
           {[ 1%Z :=
                {| SqlaMessageRepository.citations :=
                     [ {| SqlaMessageRepository.source_data_id := 10 |};
                       {| SqlaMessageRepository.source_data_id := 11 |} ]
                |} ]};
         SqlaMessageRepository.source_datas := {[ 10%Z := row ]} |}
      (Some 1%Z)
    = Raise (ValidationError fields).
Proof.
  intros. unfold SqlaMessageRepository.list_message_sources.
  cbn [SqlaMessageRepository.message_responses].
  rewrite lookup_singleton_eq.
  cbn [SqlaMessageRepository.citations].
  match goal with
  | |- exists _, SqlaMessageRepository.for_citations
                   ?i ?L ?P ?v ?s (?c :: ?r) ?acc = _ =>
      destruct (for_citations_resolved i L P v s c r acc row)
        as (fields & Hraise & _)
  end.
  - apply lookup_singleton_eq.
  - exists fields. exact Hraise.
Qed.

Section ResearchContextRepositoryFacts.
Import SqlaResearchContextRepository.

Variable SQLAResearchContext : Type.
Variable convert :
  SQLAResearchContext -> res ResearchContext.

(** With no row under the key, the hand-built DTO of the repository
    comes back: code -1 and the name [ResearchContextNotFound]. *)
Lemma get_research_context_absent
    (session : Session SQLAResearchContext) (research_context_id : Z) :
  research_contexts _ session !! research_context_id = None ->
  get_research_context SQLAResearchContext convert session
    research_context_id
  = Ret {| status := false;
           errorCode := Some (-1)%Z;
           errorMessage :=
             Some ("Research context "
                   ++ str_of_int research_context_id ++ " not found.");
           errorName := Some "ResearchContextNotFound";
           errorType := Some "ResearchContextNotFound";
           data := None |}.
Proof.
  intros H. unfold get_research_context. now rewrite H.
Qed.

End ResearchContextRepositoryFacts.

(** C1.  [get_research_context] with id 999 on an empty store returns
    the error DTO with code -1, not -2, and with the name
    [ResearchContextNotFound]. *)
Theorem C1_absent_research_context_code :
  forall (SQLAResearchContext : Type)
         (convert : SQLAResearchContext -> res ResearchContext),
    SqlaResearchContextRepository.get_research_context
      SQLAResearchContext convert
      {| SqlaResearchContextRepository.research_contexts := ∅ |} 999
    = Ret {| status := false;
             errorCode := Some (-1)%Z;
             errorMessage := Some "Research context 999 not found.";
             errorName := Some "ResearchContextNotFound";
             errorType := Some "ResearchContextNotFound";
             data := None |}.
Proof.
  intros. rewrite get_research_context_absent; [reflexivity|].
  apply lookup_empty.
Qed.

(** ** The JSON layer reads back what it writes *)

Lemma load_chars_dump_char (c : ascii) (k : string) :
  Json.load_chars (Json.dump_char c k) = Json.push c (Json.load_chars k).
Proof. destruct c as [[] [] [] [] [] [] [] []]; reflexivity. Qed.

Lemma load_chars_dump_chars (s k : string) :
  Json.load_chars (Json.dump_chars s (String Json.quote k)) = Some (s, k).
Proof.
  induction s as [|c s IH]; [reflexivity|].
  cbn [Json.dump_chars]. now rewrite load_chars_dump_char, IH.
Qed.

Lemma string_of_uint_digits (d : Decimal.uint) :
  all_str is_digit (NilEmpty.string_of_uint d) = true.
Proof. induction d; simpl; auto. Qed.

Lemma is_digit_number_char (c : ascii) :
  is_digit c = true -> Json.is_number_char c = true.
Proof. unfold Json.is_number_char. now intros ->. Qed.

(** [str(z)] is a non-empty run of number characters. *)
Lemma str_of_int_chars (z : Z) :
  all_str Json.is_number_char (str_of_int z) = true.
Proof.
  assert (Hu : forall d,
             all_str Json.is_number_char (NilZero.string_of_uint d) = true).
  { intros d. apply (all_str_weaken _ _ _ is_digit_number_char).
    destruct d; try apply string_of_uint_digits. reflexivity. }
  unfold str_of_int. destruct (Z.to_int z); simpl; auto.
Qed.

Lemma str_of_int_cons (z : Z) :
  exists c r, str_of_int z = String c r /\ Json.is_number_char c = true.
Proof.
  pose proof (str_of_int_chars z) as H.
  destruct (str_of_int z) as [|c r] eqn:E.
  - exfalso. unfold str_of_int in E.
    destruct (Z.to_int z) as [d|d]; simpl in E; [|discriminate].
    destruct d; discriminate.
  - simpl in H. apply andb_true_iff in H as [Hc _]. eauto.
Qed.

Lemma int_of_str_of_int (z : Z) :
  NilZero.int_of_string (str_of_int z) = Some (Z.to_int z).
Proof.
  unfold str_of_int. apply NilZero.isi; destruct z; simpl; try discriminate;
    intros [= E]; now apply Unsigned.to_uint_nonnil in E.
Qed.

Lemma span_number_app (s : string) (c : ascii) (k : string) :
  all_str Json.is_number_char s = true ->
  Json.is_number_char c = false ->
  Json.span_number (s ++ String c k) = (s, String c k).
Proof.
  intros Hs Hc. induction s as [|x s IH].
  - simpl. now rewrite Hc.
  - simpl in Hs. apply andb_true_iff in Hs as [Hx Hs].
    rewrite append_cons. cbn [Json.span_number]. now rewrite Hx, IH.
Qed.

Lemma load_int_str_of_int (z : Z) (c : ascii) (k : string) :
  Json.is_number_char c = false ->
  Json.load_int (str_of_int z ++ String c k) = Some (z, String c k).
Proof.
  intros Hc. unfold Json.load_int.
  rewrite span_number_app by (apply str_of_int_chars || exact Hc).
  now rewrite int_of_str_of_int, DecimalZ.of_to.
Qed.

Lemma number_char_not_quote (c : ascii) :
  Json.is_number_char c = true -> Ascii.eqb c Json.quote = false.
Proof.
  destruct c as [[] [] [] [] [] [] [] []]; vm_compute; intros H;
    first [reflexivity | discriminate H].
Qed.

Lemma load_value_dump_value (v : Json.jvalue) (c : ascii) (k : string) :
  Json.is_number_char c = false ->
  Json.load_value (Json.dump_value v (String c k)) = Some (v, String c k).
Proof.
  intros Hc. destruct v as [s|z].
  - cbn [Json.dump_value Json.dump_string Json.load_value].
    rewrite Ascii.eqb_refl. now rewrite load_chars_dump_chars.
  - cbn [Json.dump_value].
    pose proof (load_int_str_of_int z c k Hc) as Hload.
    destruct (str_of_int_cons z) as (x & r & E & Hx).
    rewrite E in *. rewrite append_cons in *.
    cbn [Json.load_value].
    rewrite (number_char_not_quote _ Hx). now rewrite Hload.
Qed.

Lemma load_member_dump_member (m : string * Json.jvalue) (c : ascii)
    (k : string) :
  Json.is_number_char c = false ->
  Json.load_member (Json.dump_member m (String c k)) = Some (m, String c k).
Proof.
  intros Hc. destruct m as [key v].
  cbn [Json.dump_member Json.dump_string Json.load_member fst snd].
  rewrite Ascii.eqb_refl, load_chars_dump_chars.
  change (Ascii.eqb ":" ":") with true. cbv iota.
  now rewrite load_value_dump_value.
Qed.

Lemma load_members_dump_members (ms : list (string * Json.jvalue))
    (m : string * Json.jvalue) (fuel : nat) (k : string) :
  length (m :: ms) <= fuel ->
  Json.load_members fuel (Json.dump_members (m :: ms) k)
  = Some (m :: ms, k).
Proof.
  revert m fuel. induction ms as [|m' ms IH]; intros m fuel Hfuel;
    (destruct fuel as [|fuel]; [simpl in Hfuel; lia|]).
  - cbn [Json.dump_members Json.load_members].
    now rewrite load_member_dump_member.
  - change (Json.dump_members (m :: m' :: ms) k)
      with (Json.dump_member m (String "," (Json.dump_members (m' :: ms) k))).
    cbn [Json.load_members].
    rewrite load_member_dump_member by reflexivity.
    change (Ascii.eqb "," "}") with false.
    change (Ascii.eqb "," ",") with true. cbv iota.
    rewrite IH; [reflexivity|]. simpl in *. lia.
Qed.

Lemma dump_char_length (c : ascii) (k : string) :
  String.length k < String.length (Json.dump_char c k).
Proof.
  unfold Json.dump_char.
  repeat match goal with
         | |- context [if ?b then _ else _] => destruct b
         end; simpl; lia.
Qed.

Lemma dump_chars_length (s k : string) :
  String.length k <= String.length (Json.dump_chars s k).
Proof.
  induction s as [|c s IH]; simpl; [lia|].
  pose proof (dump_char_length c (Json.dump_chars s k)). lia.
Qed.

Lemma dump_member_length (m : string * Json.jvalue) (k : string) :
  String.length k < String.length (Json.dump_member m k).
Proof.
  unfold Json.dump_member, Json.dump_string. simpl String.length.
  pose proof (dump_chars_length (fst m)
                (String Json.quote (String ":" (Json.dump_value (snd m) k)))).
  simpl String.length in H.
  assert (String.length k <= String.length (Json.dump_value (snd m) k)).
  { destruct (snd m) as [s|z]; simpl.
    - pose proof (dump_chars_length s (String Json.quote k)).
      simpl String.length in *. lia.
    - rewrite append_length. lia. }
  lia.
Qed.

Lemma dump_members_length (ms : list (string * Json.jvalue)) (k : string) :
  length ms <= String.length (Json.dump_members ms k).
Proof.
  induction ms as [|m ms IH]; [simpl; lia|].
  destruct ms as [|m' ms].
  - pose proof (dump_member_length m (String "}" k)). simpl in *. lia.
  - change (Json.dump_members (m :: m' :: ms) k)
      with (Json.dump_member m (String "," (Json.dump_members (m' :: ms) k))).
    pose proof (dump_member_length m
                  (String "," (Json.dump_members (m' :: ms) k))).
    simpl String.length in *. simpl length in *. lia.
Qed.

(** Loading a dumped object gives the object back. *)
Lemma loads_dumps (o : Json.jobject) : Json.loads (Json.dumps o) = Some o.
Proof.
  destruct o as [|m ms]; [reflexivity|].
  unfold Json.dumps, Json.loads.
  change (Ascii.eqb "{" "{") with true. cbv iota.
  pose proof (dump_members_length (m :: ms) EmptyString) as Hlen.
  pose proof (load_members_dump_members ms m _ EmptyString Hlen) as Hload.
  assert (Hq : exists r,
             Json.dump_members (m :: ms) EmptyString = String Json.quote r).
  { destruct ms; eexists; reflexivity. }
  destruct Hq as [r Hq]. rewrite Hq in *.
  change (Ascii.eqb Json.quote "}") with false. cbv iota.
  now rewrite Hload.
Qed.

(** ** [LFN.to_json] and [LFN.from_json] *)

Lemma ProtocolEnum_of_value_value (p : ProtocolEnum) :
  ProtocolEnum_of_value (ProtocolEnum_value p) = Some p.
Proof. destruct p; reflexivity. Qed.

Lemma KnowledgeSourceEnum_of_value_value (k : KnowledgeSourceEnum) :
  KnowledgeSourceEnum_of_value (KnowledgeSourceEnum_value k) = Some k.
Proof. destruct k; reflexivity. Qed.

(** Validating the dump of [x] rebuilds [x] from its own fields, the
    validator running once more on its [relative_path]. *)
Lemma model_validate_model_dump (entropy : N) (x : LFN) :
  model_validate entropy (model_dump x)
  = Ret (LFN_init entropy (protocol x) (tracer_id x) (job_id x)
           (source x) (relative_path x)).
Proof.
  unfold model_validate, model_dump. cbn [Json.get String.eqb Ascii.eqb
    Bool.eqb as_enum as_string as_int].
  now rewrite ProtocolEnum_of_value_value, KnowledgeSourceEnum_of_value_value.
Qed.

(** The round trip on any value whose [relative_path] carries the
    marker. *)
Lemma from_json_to_json_marked (entropy : N) (x : LFN) :
  contains marker (relative_path x) = true ->
  from_json entropy (to_json x) = Ret x.
Proof.
  intros Hm. unfold from_json, to_json.
  rewrite loads_dumps, model_validate_model_dump.
  destruct x as [p t j s r]. unfold LFN_init. cbn [protocol tracer_id job_id
    source relative_path] in *.
  now rewrite canonicalize_marked.
Qed.

(** C9.  Every constructed [LFN] survives the round trip through its
    JSON text on all five fields, whatever entropy is at hand when the
    text is loaded. *)
Theorem C9_lfn_json_round_trip :
  forall (entropy entropy' : N) (protocol : ProtocolEnum)
         (tracer_id : string) (job_id : Z) (source : KnowledgeSourceEnum)
         (relative_path : string),
    let x := LFN_init entropy protocol tracer_id job_id source
               relative_path in
    from_json entropy' (to_json x) = Ret x.
Proof.
  intros. apply from_json_to_json_marked.
  unfold x, LFN_init. cbn [Models.relative_path].
  apply canonicalize_has_marker.
Qed.

(* ===================================================================== *)
(** * Further properties of the modelled code                            *)
(* ===================================================================== *)

(** ** The seed of a canonical path *)

Lemma nibble_not_dash (n k : N) : Ascii.eqb (Uuid.nibble n k) "-" = false.
Proof.
  unfold Uuid.nibble.
  destruct (N.testbit n (4 * k + 3)), (N.testbit n (4 * k + 2)),
    (N.testbit n (4 * k + 1)), (N.testbit n (4 * k)); reflexivity.
Qed.

Lemma hex_digits_length (n : N) (count : nat) :
  String.length (Uuid.hex_digits n count) = count.
Proof. induction count as [|k IH]; simpl; [reflexivity | now rewrite IH]. Qed.

Lemma hex_digits_no_dash (n : N) (count : nat) :
  absent_from "-" (Uuid.hex_digits n count) = true.
Proof.
  unfold absent_from. induction count as [|k IH]; [reflexivity|].
  cbn [Uuid.hex_digits all_str]. now rewrite nibble_not_dash, IH.
Qed.

Lemma replace_app (old : ascii) (new a b : string) :
  replace old new (a ++ b) = replace old new a ++ replace old new b.
Proof.
  induction a as [|x a IH]; [reflexivity|].
  rewrite append_cons. cbn [replace]. rewrite IH.
  destruct (Ascii.eqb x old); [now rewrite append_assoc | reflexivity].
Qed.

Lemma replace_absent (old : ascii) (new s : string) :
  absent_from old s = true -> replace old new s = s.
Proof.
  unfold absent_from. induction s as [|x s IH]; [reflexivity|].
  cbn [all_str replace]. intros [Hx Hs]%andb_true_iff.
  apply negb_true_iff in Hx. now rewrite Hx, IH.
Qed.

(** The five groups of the 8-4-4-4-12 rendering are the 32 digits. *)
Lemma substring_groups (h : string) :
  String.length h = 32 ->
  substring 0 8 h ++ substring 8 4 h ++ substring 12 4 h
  ++ substring 16 4 h ++ substring 20 12 h = h.
Proof.
  intros H.
  do 32 (destruct h as [|? h]; [discriminate H|]).
  destruct h; [reflexivity | discriminate H].
Qed.

(** Removing the hyphens from the rendered UUID leaves its 32 hex
    digits. *)
Lemma seed_is_hex32 (u : Uuid.UUID) :
  replace "-" EmptyString (Uuid.to_str u) = Uuid.hex32 u.
Proof.
  unfold Uuid.to_str.
  pose proof (hex_digits_no_dash u 32) as Hd. fold (Uuid.hex32 u) in Hd.
  pose proof (hex_digits_length u 32) as Hl. fold (Uuid.hex32 u) in Hl.
  generalize dependent (Uuid.hex32 u). intros h Hd Hl.
  assert (Hsub : forall n m,
             replace "-" EmptyString (substring n m h) = substring n m h).
  { intros n m. apply replace_absent.
    now apply all_str_substring. }
  assert (Hskip : forall x,
             replace "-" EmptyString ("-" ++ x) = replace "-" EmptyString x)
    by reflexivity.
  repeat first [rewrite Hskip | rewrite Hsub | rewrite replace_app].
  now apply substring_groups.
Qed.

(** ** Base names *)

Lemma rfind_lower_bound (c : ascii) (s : string) : (-1 <= rfind c s)%Z.
Proof.
  induction s as [|a r IH]; cbn [rfind]; [lia|].
  destruct (0 <=? rfind c r)%Z eqn:E; [apply Z.leb_le in E; lia|].
  destruct (Ascii.eqb a c); lia.
Qed.

Lemma rfind_absent (c : ascii) (s : string) :
  (rfind c s < 0)%Z -> absent_from c s = true.
Proof.
  unfold absent_from. induction s as [|a r IH]; [reflexivity|].
  cbn [rfind all_str].
  destruct (0 <=? rfind c r)%Z eqn:E.
  - apply Z.leb_le in E. lia.
  - apply Z.leb_gt in E. destruct (Ascii.eqb a c); [lia|].
    intros _. now rewrite IH.
Qed.

Lemma absent_rfind (c : ascii) (s : string) :
  absent_from c s = true -> rfind c s = (-1)%Z.
Proof.
  unfold absent_from. induction s as [|a r IH]; [reflexivity|].
  cbn [rfind all_str]. intros [Ha Hr]%andb_true_iff.
  apply negb_true_iff in Ha. now rewrite (IH Hr), Ha.
Qed.

Lemma basename_cons (a : ascii) (r : string) :
  Posixpath.basename (String a r)
  = if (0 <=? rfind "/" r)%Z then Posixpath.basename r
    else if Ascii.eqb a "/" then r else String a r.
Proof.
  unfold Posixpath.basename, slice_from. cbn [rfind].
  destruct (0 <=? rfind "/" r)%Z eqn:E.
  - apply Z.leb_le in E.
    replace (Z.to_nat (rfind "/" r + 1 + 1))
      with (S (Z.to_nat (rfind "/" r + 1))) by lia.
    reflexivity.
  - destruct (Ascii.eqb a "/"); reflexivity.
Qed.

(** A base name holds no slash. *)
Lemma basename_no_slash (p : string) :
  absent_from "/" (Posixpath.basename p) = true.
Proof.
  induction p as [|a r IH]; [reflexivity|].
  rewrite basename_cons.
  destruct (0 <=? rfind "/" r)%Z eqn:E; [exact IH|].
  apply Z.leb_gt, rfind_absent in E.
  destruct (Ascii.eqb a "/") eqn:Ha; [exact E|].
  unfold absent_from in *. cbn [all_str]. now rewrite Ha, E.
Qed.

(** A path without slash is its own base name. *)
Lemma basename_absent (p : string) :
  absent_from "/" p = true -> Posixpath.basename p = p.
Proof.
  intros H. unfold Posixpath.basename. now rewrite (absent_rfind _ _ H).
Qed.

(** The base name is what remains of the path after a prefix. *)
Lemma basename_suffix (p : string) :
  exists d, p = d ++ Posixpath.basename p.
Proof.
  induction p as [|a r [d IH]]; [now exists EmptyString|].
  rewrite basename_cons.
  destruct (0 <=? rfind "/" r)%Z.
  - exists (String a d). now rewrite append_cons, <- IH.
  - destruct (Ascii.eqb a "/").
    + now exists (String a EmptyString).
    + now exists EmptyString.
Qed.

Lemma rfind_app_sep (c : ascii) (d b : string) :
  (0 <= rfind c (d ++ String c b))%Z.
Proof.
  induction d as [|a d IH].
  - change (EmptyString ++ String c b) with (String c b). cbn [rfind].
    destruct (0 <=? rfind c b)%Z eqn:E; [apply Z.leb_le in E; lia|].
    rewrite Ascii.eqb_refl. lia.
  - rewrite append_cons. cbn [rfind].
    apply Z.leb_le in IH. rewrite IH. apply Z.leb_le in IH. lia.
Qed.

(** Everything up to the last slash is dropped. *)
Lemma basename_app_slash (d b : string) :
  absent_from "/" b = true ->
  Posixpath.basename (d ++ String "/" b) = b.
Proof.
  intros Hb. induction d as [|a d IH].
  - change (EmptyString ++ String "/" b) with (String "/" b).
    rewrite basename_cons, (absent_rfind _ _ Hb). reflexivity.
  - rewrite append_cons, basename_cons.
    pose proof (rfind_app_sep "/" d b) as H. apply Z.leb_le in H.
    now rewrite H.
Qed.

(** ** Sanitizing and splitting *)

Lemma filter_all (p : ascii -> bool) (s : string) :
  all_str p s = true -> filter_str p s = s.
Proof.
  induction s as [|x s IH]; [reflexivity|].
  cbn [all_str filter_str]. intros [Hx Hs]%andb_true_iff.
  now rewrite Hx, IH.
Qed.

Lemma all_str_filter_other (q p : ascii -> bool) (s : string) :
  all_str q s = true -> all_str q (filter_str p s) = true.
Proof.
  induction s as [|x s IH]; [reflexivity|].
  cbn [all_str filter_str]. intros [Hx Hs]%andb_true_iff.
  destruct (p x); cbn [all_str]; [rewrite Hx|]; auto.
Qed.

Lemma all_str_and (p q : ascii -> bool) (s : string) :
  all_str (fun c => p c && q c) s = all_str p s && all_str q s.
Proof.
  induction s as [|x s IH]; [reflexivity|].
  cbn [all_str]. rewrite IH.
  destruct (p x), (q x), (all_str p s), (all_str q s); reflexivity.
Qed.

Lemma split_absent (sep : ascii) (s : string) :
  absent_from sep s = true -> split sep s = [s].
Proof.
  unfold absent_from. induction s as [|x s IH]; [reflexivity|].
  cbn [all_str split]. intros [Hx Hs]%andb_true_iff.
  apply negb_true_iff in Hx. now rewrite Hx, (IH Hs).
Qed.

(** No piece of a split holds the separator. *)
Lemma split_pieces_absent (sep : ascii) (s : string) :
  Forall (fun x => absent_from sep x = true) (split sep s).
Proof.
  induction s as [|c s IH]; cbn [split].
  - repeat constructor.
  - destruct (Ascii.eqb c sep) eqn:E.
    + constructor; [reflexivity | exact IH].
    + destruct (split sep s) as [|h t]; [repeat constructor|].
      * unfold absent_from. cbn [all_str]. now rewrite E.
      * inversion IH as [|? ? Hh Ht]. subst. constructor; [|exact Ht].
        unfold absent_from in *. cbn [all_str]. now rewrite E, Hh.
Qed.

Lemma split_hd_absent (sep : ascii) (s : string) :
  absent_from sep (hd EmptyString (split sep s)) = true.
Proof.
  pose proof (split_pieces_absent sep s) as H.
  destruct (split sep s); [reflexivity|]. now inversion H.
Qed.

Lemma split_last_absent (sep : ascii) (s : string) :
  absent_from sep (last (split sep s) EmptyString) = true.
Proof.
  pose proof (split_pieces_absent sep s) as H.
  induction H as [|x l Hx Hl IH]; [reflexivity|].
  destruct l; [exact Hx | exact IH].
Qed.

Lemma split_app_sep_hd (sep : ascii) (a b : string) :
  absent_from sep a = true ->
  split sep (a ++ String sep b) = a :: split sep b.
Proof.
  unfold absent_from. induction a as [|x a IH].
  - intros _. change (EmptyString ++ String sep b) with (String sep b).
    cbn [split]. now rewrite Ascii.eqb_refl.
  - cbn [all_str]. intros [Hx Ha]%andb_true_iff.
    apply negb_true_iff in Hx.
    rewrite append_cons. cbn [split]. now rewrite Hx, (IH Ha).
Qed.

Lemma split_app_sep_last (sep : ascii) (front e : string) :
  absent_from sep e = true ->
  last (split sep (front ++ String sep e)) EmptyString = e.
Proof.
  intros He.
  assert (H : exists l : list string,
             split sep (front ++ String sep e) = (l ++ [e])%list
             /\ l <> []).
  { induction front as [|c f (l & IH & Hl)].
    - exists [EmptyString].
      change (EmptyString ++ String sep e) with (String sep e).
      cbn [split]. rewrite Ascii.eqb_refl, (split_absent _ _ He).
      split; [reflexivity | discriminate].
    - rewrite append_cons. cbn [split]. rewrite IH.
      destruct (Ascii.eqb c sep).
      + exists (EmptyString :: l). split; [reflexivity | discriminate].
      + destruct l as [|h t]; [contradiction|].
        exists (String c h :: t). split; [reflexivity | discriminate]. }
  destruct H as (l & -> & _). apply last_last.
Qed.

Lemma name_char_split (s : string) :
  all_str name_char s = true
  <-> all_str allowed_char s = true
      /\ absent_from "." s = true /\ absent_from "/" s = true.
Proof.
  unfold absent_from. induction s as [|x s IH]; cbn [all_str].
  - tauto.
  - unfold name_char at 1. rewrite !andb_true_iff, IH. tauto.
Qed.

Lemma hex_char_is_hex_digit (b3 b2 b1 b0 : bool) :
  Uuid.is_hex_digit (Uuid.hex_char b3 b2 b1 b0) = true.
Proof. destruct b3, b2, b1, b0; reflexivity. Qed.

Lemma hex_digits_are_hex_digits (n : N) (count : nat) :
  all_str Uuid.is_hex_digit (Uuid.hex_digits n count) = true.
Proof.
  induction count as [|k IH]; [reflexivity|].
  cbn [Uuid.hex_digits all_str]. unfold Uuid.nibble.
  now rewrite hex_char_is_hex_digit, IH.
Qed.

Lemma hex_digit_name_char (c : ascii) :
  Uuid.is_hex_digit c = true -> name_char c = true.
Proof.
  destruct c as [[] [] [] [] [] [] [] []]; vm_compute; intros H;
    first [reflexivity | discriminate H].
Qed.

(** The canonical path of a sanitized, slash-free, unmarked name. *)
Lemma canonicalize_clean_base (entropy : N) (b : string) :
  contains marker b = false ->
  all_str allowed_char b = true ->
  absent_from "/" b = true ->
  canonicalize entropy b
  = hd EmptyString (split "." b) ++ "-"
    ++ Uuid.hex32 (Uuid.uuid4 entropy) ++ "-" ++ marker ++ "."
    ++ last (split "." b) EmptyString.
Proof.
  intros Hm Ha Hs. rewrite canonicalize_fresh by exact Hm.
  rewrite (basename_absent _ Hs). unfold re_sub_disallowed.
  rewrite (filter_all _ _ Ha), seed_is_hex32. reflexivity.
Qed.

Lemma basename_unmarked (p : string) :
  contains marker p = false ->
  contains marker (Posixpath.basename p) = false.
Proof.
  intros H. destruct (basename_suffix p) as [d E].
  rewrite E in H. now apply contains_false_app_r in H.
Qed.

(** X1.  Directories do not count: an unmarked path and its base name get the
    same canonical path. *)
Theorem canonicalize_ignores_directories (entropy : N) (p : string) :
  contains marker p = false ->
  canonicalize entropy p = canonicalize entropy (Posixpath.basename p).
Proof.
  intros H.
  rewrite (canonicalize_fresh entropy p H).
  rewrite (canonicalize_fresh entropy _ (basename_unmarked p H)).
  now rewrite (basename_absent _ (basename_no_slash p)).
Qed.

Lemma canonicalize_ignores_directories_witness :
  contains marker "/tmp/reports/final.report.pdf" = false
  /\ canonicalize 11 "/tmp/reports/final.report.pdf"
     = canonicalize 11 "final.report.pdf".
Proof.
  split; [reflexivity|].
  exact (canonicalize_ignores_directories
           11 "/tmp/reports/final.report.pdf" eq_refl).
Defined.

(** The two outer parts of a fresh canonical path: the first and the
    last piece of the sanitized base name, neither of which holds a dot,
    a slash or a character off the white list. *)
Lemma fresh_path_parts (p : string) :
  all_str name_char
    (hd EmptyString (split "." (re_sub_disallowed (Posixpath.basename p))))
  = true
  /\ all_str name_char
       (last (split "." (re_sub_disallowed (Posixpath.basename p)))
          EmptyString)
     = true.
Proof.
  set (v := re_sub_disallowed (Posixpath.basename p)).
  assert (Hv : all_str allowed_char v = true) by apply all_str_filter.
  assert (Hs : absent_from "/" v = true).
  { apply all_str_filter_other, basename_no_slash. }
  split; apply name_char_split; (split; [|split]).
  - now apply split_hd_all.
  - apply split_hd_absent.
  - now apply split_hd_all.
  - now apply split_last_all.
  - apply split_last_absent.
  - now apply split_last_all.
Qed.

(** X2.  A fresh canonical path is [name-seed-sdamarker.ext]: the seed
    is the 32 hex digits of the drawn UUID, and neither the name nor the
    extension holds a dot, a slash or a character off the white list. *)
Theorem fresh_path_shape (entropy : N) (p : string) :
  contains marker p = false ->
  exists name ext : string,
    canonicalize entropy p
    = name ++ "-" ++ Uuid.hex32 (Uuid.uuid4 entropy) ++ "-" ++ marker
      ++ "." ++ ext
    /\ all_str name_char name = true
    /\ all_str name_char ext = true
    /\ String.length (Uuid.hex32 (Uuid.uuid4 entropy)) = 32
    /\ all_str Uuid.is_hex_digit (Uuid.hex32 (Uuid.uuid4 entropy)) = true.
Proof.
  intros H. destruct (fresh_path_parts p) as [Hn He].
  do 2 eexists. split; [|split; [exact Hn|split; [exact He|split]]].
  - rewrite canonicalize_fresh by exact H. now rewrite seed_is_hex32.
  - apply hex_digits_length.
  - apply hex_digits_are_hex_digits.
Qed.

Lemma fresh_path_shape_witness :
  contains marker "my report (v2).final.pdf" = false
  /\ exists name ext : string,
       canonicalize 5 "my report (v2).final.pdf"
       = name ++ "-" ++ Uuid.hex32 (Uuid.uuid4 5) ++ "-" ++ marker
         ++ "." ++ ext
       /\ all_str name_char name = true
       /\ all_str name_char ext = true
       /\ String.length (Uuid.hex32 (Uuid.uuid4 5)) = 32
       /\ all_str Uuid.is_hex_digit (Uuid.hex32 (Uuid.uuid4 5)) = true.
Proof.
  split; [reflexivity|].
  exact (fresh_path_shape 5 "my report (v2).final.pdf" eq_refl).
Defined.

Lemma occurrences_char_app (c : ascii) (a b : string) :
  occurrences (String c EmptyString) (a ++ b)
  = occurrences (String c EmptyString) a
    + occurrences (String c EmptyString) b.
Proof.
  assert (Hp : forall s, prefix EmptyString s = true) by now intros [].
  induction a as [|x t IH]; [reflexivity|].
  rewrite append_cons, !occurrences_cons, !prefix_cons, !Hp, IH. lia.
Qed.

(** X3.  A fresh canonical path is flat and has one extension dot: it holds
    no slash and exactly one dot. *)
Theorem fresh_path_flat_one_dot (entropy : N) (p : string) :
  contains marker p = false ->
  occurrences "/" (canonicalize entropy p) = 0
  /\ occurrences "." (canonicalize entropy p) = 1.
Proof.
  intros H.
  destruct (fresh_path_parts p) as [Hn He].
  pose proof (hex_digits_are_hex_digits (Uuid.uuid4 entropy) 32) as Hh.
  fold (Uuid.hex32 (Uuid.uuid4 entropy)) in Hh.
  assert (E : canonicalize entropy p
              = hd EmptyString
                  (split "." (re_sub_disallowed (Posixpath.basename p)))
                ++ "-" ++ Uuid.hex32 (Uuid.uuid4 entropy) ++ "-" ++ marker
                ++ "."
                ++ last (split "."
                           (re_sub_disallowed (Posixpath.basename p)))
                     EmptyString).
  { rewrite canonicalize_fresh by exact H. now rewrite seed_is_hex32. }
  rewrite E. clear E. revert Hn He.
  generalize (hd EmptyString
                (split "." (re_sub_disallowed (Posixpath.basename p))))
             (last (split "." (re_sub_disallowed (Posixpath.basename p)))
                EmptyString).
  intros name ext Hn He.
  apply name_char_split in Hn as (_ & Hnd & Hns).
  apply name_char_split in He as (_ & Hed & Hes).
  pose proof (all_str_weaken _ _ _ hex_digit_name_char Hh) as Hseed.
  apply name_char_split in Hseed as (_ & Hsd & Hss).
  rewrite !occurrences_char_app.
  rewrite (occurrences_absent "/" EmptyString name Hns),
    (occurrences_absent "/" EmptyString ext Hes),
    (occurrences_absent "/" EmptyString _ Hss),
    (occurrences_absent "." EmptyString name Hnd),
    (occurrences_absent "." EmptyString ext Hed),
    (occurrences_absent "." EmptyString _ Hsd).
  split; reflexivity.
Qed.

Lemma fresh_path_flat_one_dot_witness :
  contains marker "/tmp/reports/final.report.pdf" = false
  /\ occurrences "/" (canonicalize 3 "/tmp/reports/final.report.pdf") = 0
  /\ occurrences "." (canonicalize 3 "/tmp/reports/final.report.pdf") = 1.
Proof.
  split; [reflexivity|].
  exact (fresh_path_flat_one_dot 3 "/tmp/reports/final.report.pdf" eq_refl).
Defined.

(** X4.  A name with one extension: the name and the extension are kept
    around the seed and the marker. *)
Theorem canonicalize_name_ext (entropy : N) (n e : string) :
  all_str name_char n = true ->
  all_str name_char e = true ->
  contains marker (n ++ "." ++ e) = false ->
  canonicalize entropy (n ++ "." ++ e)
  = n ++ "-" ++ Uuid.hex32 (Uuid.uuid4 entropy) ++ "-" ++ marker
    ++ "." ++ e.
Proof.
  intros Hn He Hm.
  apply name_char_split in Hn as (Hna & Hnd & Hns).
  apply name_char_split in He as (Hea & Hed & Hes).
  rewrite canonicalize_clean_base; [|exact Hm| |].
  - change ("." ++ e) with (String "." e).
    rewrite (split_app_sep_hd _ _ _ Hnd), (split_absent _ _ Hed).
    reflexivity.
  - rewrite all_str_app, Hna. cbn [all_str String.append]. now rewrite Hea.
  - unfold absent_from in *. rewrite all_str_app, Hns.
    cbn [all_str String.append]. now rewrite Hes.
Qed.

Lemma canonicalize_name_ext_witness :
  contains marker ("notes" ++ "." ++ "txt") = false
  /\ canonicalize 1 ("notes" ++ "." ++ "txt")
     = "notes" ++ "-" ++ Uuid.hex32 (Uuid.uuid4 1) ++ "-" ++ marker
       ++ "." ++ "txt".
Proof.
  split; [reflexivity|].
  apply canonicalize_name_ext; reflexivity.
Defined.

(** X5.  A name without a dot is its own extension; the empty name gives the
    bare seed and marker. *)
Theorem canonicalize_no_extension (entropy : N) (n : string) :
  all_str name_char n = true ->
  contains marker n = false ->
  canonicalize entropy n
  = n ++ "-" ++ Uuid.hex32 (Uuid.uuid4 entropy) ++ "-" ++ marker
    ++ "." ++ n.
Proof.
  intros Hn Hm.
  apply name_char_split in Hn as (Hna & Hnd & Hns).
  rewrite canonicalize_clean_base by assumption.
  now rewrite (split_absent _ _ Hnd).
Qed.

Lemma canonicalize_no_extension_witness :
  contains marker "README" = false
  /\ canonicalize 1 "README"
     = "README" ++ "-" ++ Uuid.hex32 (Uuid.uuid4 1) ++ "-" ++ marker
       ++ "." ++ "README".
Proof.
  split; [reflexivity|].
  apply canonicalize_no_extension; reflexivity.
Defined.

(** X6.  With several dots, the name stops at the first dot and the
    extension starts after the last one: what lies between is lost. *)
Theorem canonicalize_drops_between_dots (entropy : N) (n mid e : string) :
  all_str name_char n = true ->
  all_str allowed_char mid = true ->
  absent_from "/" mid = true ->
  all_str name_char e = true ->
  contains marker (n ++ "." ++ mid ++ "." ++ e) = false ->
  canonicalize entropy (n ++ "." ++ mid ++ "." ++ e)
  = n ++ "-" ++ Uuid.hex32 (Uuid.uuid4 entropy) ++ "-" ++ marker
    ++ "." ++ e.
Proof.
  intros Hn Hma Hms He Hm.
  apply name_char_split in Hn as (Hna & Hnd & Hns).
  apply name_char_split in He as (Hea & Hed & Hes).
  assert (Hhd : hd EmptyString (split "." (n ++ "." ++ mid ++ "." ++ e))
                = n).
  { change ("." ++ mid ++ "." ++ e) with (String "." (mid ++ "." ++ e)).
    now rewrite (split_app_sep_hd _ _ _ Hnd). }
  assert (Hlast : last (split "." (n ++ "." ++ mid ++ "." ++ e))
                    EmptyString = e).
  { replace (n ++ "." ++ mid ++ "." ++ e)
      with ((n ++ "." ++ mid) ++ String "." e)
      by (now rewrite append_assoc).
    now apply split_app_sep_last. }
  rewrite canonicalize_clean_base; [|exact Hm| |].
  - now rewrite Hhd, Hlast.
  - rewrite !all_str_app, Hna, Hma. cbn [all_str String.append].
    now rewrite Hea.
  - unfold absent_from in *. rewrite !all_str_app, Hns, Hms.
    cbn [all_str String.append]. now rewrite Hes.
Qed.

Lemma canonicalize_drops_between_dots_witness :
  contains marker ("final" ++ "." ++ "report" ++ "." ++ "pdf") = false
  /\ canonicalize 1 ("final" ++ "." ++ "report" ++ "." ++ "pdf")
     = "final" ++ "-" ++ Uuid.hex32 (Uuid.uuid4 1) ++ "-" ++ marker
       ++ "." ++ "pdf".
Proof.
  split; [reflexivity|].
  apply canonicalize_drops_between_dots; reflexivity.
Defined.

(** ** Distinct UUIDs give distinct paths *)

Lemma hex_char_inj (a3 a2 a1 a0 b3 b2 b1 b0 : bool) :
  Uuid.hex_char a3 a2 a1 a0 = Uuid.hex_char b3 b2 b1 b0 ->
  a3 = b3 /\ a2 = b2 /\ a1 = b1 /\ a0 = b0.
Proof.
  destruct a3, a2, a1, a0, b3, b2, b1, b0; intros H;
    first [discriminate H | repeat split].
Qed.

Lemma hex_digits_inj (n m : N) (count : nat) :
  Uuid.hex_digits n count = Uuid.hex_digits m count ->
  forall k, (k < count)%nat ->
    Uuid.nibble n (N.of_nat k) = Uuid.nibble m (N.of_nat k).
Proof.
  induction count as [|c IH]; intros H k Hk; [lia|].
  cbn [Uuid.hex_digits] in H. injection H as Hc Hrest.
  destruct (Nat.eq_dec k c) as [->|Hne]; [exact Hc|].
  apply IH; [exact Hrest | lia].
Qed.

(** Two integers with the same 32 hex digits agree on their low 128
    bits. *)
Lemma hex32_low_bits (n m : N) (i : N) :
  Uuid.hex32 n = Uuid.hex32 m -> (i < 128)%N ->
  N.testbit n i = N.testbit m i.
Proof.
  intros H Hi.
  pose proof (hex_digits_inj n m 32 H (N.to_nat (i / 4))) as Hk.
  rewrite N2Nat.id in Hk.
  assert (Hq : (i / 4 < 32)%N) by (apply N.Div0.div_lt_upper_bound; lia).
  specialize (Hk ltac:(lia)).
  unfold Uuid.nibble in Hk. apply hex_char_inj in Hk as (H3 & H2 & H1 & H0).
  pose proof (N.div_mod i 4 ltac:(lia)) as Hdm.
  pose proof (N.mod_lt i 4 ltac:(lia)) as Hlt.
  set (q := (i / 4)%N) in *. set (r := (i mod 4)%N) in *.
  clearbody q r. subst i.
  assert (Hcases : (r = 0 \/ r = 1 \/ r = 2 \/ r = 3)%N) by lia.
  destruct Hcases as [-> | [-> | [-> | ->]]];
    [rewrite N.add_0_r; exact H0 | exact H1 | exact H2 | exact H3].
Qed.

Lemma small_bits_high (a k i : N) :
  (N.log2 a < i - k)%N -> (k <= i)%N ->
  N.testbit (N.shiftl a k) i = false.
Proof.
  intros Hlog Hk. rewrite N.shiftl_spec_high' by exact Hk.
  now apply N.bits_above_log2.
Qed.

(** A drawn UUID fits in 128 bits. *)
Lemma uuid4_high_bits (entropy i : N) :
  (128 <= i)%N -> N.testbit (Uuid.uuid4 entropy) i = false.
Proof.
  intros Hi. unfold Uuid.uuid4.
  rewrite N.lor_spec, N.ldiff_spec, N.lor_spec, N.ldiff_spec.
  rewrite N.mod_pow2_bits_high by exact Hi.
  rewrite (small_bits_high 0x8000 48), (small_bits_high 4 76);
    [reflexivity| | | |]; try lia.
  - change (N.log2 4) with 2%N. lia.
  - change (N.log2 0x8000) with 15%N. lia.
Qed.

Lemma uuid4_hex32_inj (e1 e2 : N) :
  Uuid.hex32 (Uuid.uuid4 e1) = Uuid.hex32 (Uuid.uuid4 e2) ->
  Uuid.uuid4 e1 = Uuid.uuid4 e2.
Proof.
  intros H. apply N.bits_inj. intros i.
  destruct (N.lt_ge_cases i 128) as [Hi|Hi].
  - now apply hex32_low_bits.
  - now rewrite !uuid4_high_bits.
Qed.

Lemma append_inv_head (a x y : string) : a ++ x = a ++ y -> x = y.
Proof.
  induction a as [|c a IH]; [trivial|].
  rewrite !append_cons. intros [= H]. auto.
Qed.

Lemma append_inv_length (a b x y : string) :
  String.length a = String.length b -> a ++ x = b ++ y -> a = b.
Proof.
  revert b. induction a as [|c a IH]; intros [|d b]; try discriminate.
  - reflexivity.
  - rewrite !append_cons. intros [= Hl] [= -> H]. f_equal. eauto.
Qed.

(** X7.  Two canonical paths built for the same unmarked path are equal only
    if the two UUIDs drawn are the same. *)
Theorem canonicalize_injective_in_uuid (e1 e2 : N) (p : string) :
  contains marker p = false ->
  canonicalize e1 p = canonicalize e2 p ->
  Uuid.uuid4 e1 = Uuid.uuid4 e2.
Proof.
  intros H E.
  rewrite !canonicalize_fresh, !seed_is_hex32 in E by exact H.
  apply append_inv_head in E.
  apply uuid4_hex32_inj.
  assert (Hl : String.length (Uuid.hex32 (Uuid.uuid4 e1))
               = String.length (Uuid.hex32 (Uuid.uuid4 e2)))
    by (unfold Uuid.hex32; now rewrite !hex_digits_length).
  revert E Hl.
  generalize (Uuid.hex32 (Uuid.uuid4 e1)) (Uuid.hex32 (Uuid.uuid4 e2)).
  intros h1 h2 E Hl. injection E as E.
  exact (append_inv_length _ _ _ _ Hl E).
Qed.

Lemma canonicalize_injective_in_uuid_witness :
  contains marker "a.txt" = false
  /\ canonicalize 9 "a.txt" = canonicalize (9 + 2 ^ 128) "a.txt"
  /\ Uuid.uuid4 9 = Uuid.uuid4 (9 + 2 ^ 128).
Proof.
  split; [reflexivity|].
  assert (E : canonicalize 9 "a.txt" = canonicalize (9 + 2 ^ 128) "a.txt")
    by reflexivity.
  split; [exact E|].
  exact (canonicalize_injective_in_uuid 9 (9 + 2 ^ 128) "a.txt" eq_refl E).
Defined.

(** ** Logical file names and their JSON text *)

(** X8.  Loading the JSON text of any [LFN] value, also one built around the
    validator, is constructing it again from its five fields: the
    validator runs on the dumped [relative_path]. *)
Theorem from_json_to_json_revalidates (entropy : N) (x : LFN) :
  from_json entropy (to_json x)
  = Ret (LFN_init entropy (protocol x) (tracer_id x) (job_id x)
           (source x) (relative_path x)).
Proof.
  unfold from_json, to_json.
  now rewrite loads_dumps, model_validate_model_dump.
Qed.



Lemma ProtocolEnum_value_inj (p q : ProtocolEnum) :
  ProtocolEnum_value p = ProtocolEnum_value q -> p = q.
Proof.
  intros H. apply (f_equal ProtocolEnum_of_value) in H.
  rewrite !ProtocolEnum_of_value_value in H. now injection H.
Qed.

Lemma KnowledgeSourceEnum_value_inj (p q : KnowledgeSourceEnum) :
  KnowledgeSourceEnum_value p = KnowledgeSourceEnum_value q -> p = q.
Proof.
  intros H. apply (f_equal KnowledgeSourceEnum_of_value) in H.
  rewrite !KnowledgeSourceEnum_of_value_value in H. now injection H.
Qed.

(** X10.  Two [LFN] values with the same JSON text are the same value. *)
Theorem to_json_injective (x y : LFN) :
  to_json x = to_json y -> x = y.
Proof.
  intros H. apply (f_equal Json.loads) in H.
  unfold to_json in H. rewrite !loads_dumps in H.
  injection H as Hp Ht Hj Hs Hr.
  apply ProtocolEnum_value_inj in Hp.
  apply KnowledgeSourceEnum_value_inj in Hs.
  destruct x, y. cbn in *. congruence.
Qed.

Lemma to_json_injective_witness :
  to_json (LFN_init 3 S3 "tracer" 12 USER "a-sdamarker.txt")
  = to_json (LFN_init 8 S3 "tracer" 12 USER "a-sdamarker.txt")
  /\ LFN_init 3 S3 "tracer" 12 USER "a-sdamarker.txt"
     = LFN_init 8 S3 "tracer" 12 USER "a-sdamarker.txt".
Proof.
  assert (E : to_json (LFN_init 3 S3 "tracer" 12 USER "a-sdamarker.txt")
              = to_json (LFN_init 8 S3 "tracer" 12 USER "a-sdamarker.txt"))
    by reflexivity.
  split; [exact E | exact (to_json_injective _ _ E)].
Defined.

(** ** The factory: when it returns, and what *)

Lemma lower_id_upper (a : string) : lower a = "id" -> upper a = "ID".
Proof.
  intros H. destruct a as [|c1 [|c2 [|c3 a]]]; try discriminate H.
  injection H as H1 H2.
  unfold upper. simpl. now rewrite (lower_i _ H1), (lower_d _ H2).
Qed.

Lemma lower_sid_upper (a : string) : lower a = "sid" -> upper a = "SID".
Proof.
  intros H. destruct a as [|c1 [|c2 [|c3 [|c4 a]]]]; try discriminate H.
  injection H as H1 H2 H3.
  unfold upper. simpl.
  now rewrite (lower_s _ H1), (lower_i _ H2), (lower_d _ H3).
Qed.

Lemma allow_listed_cases (a : string) :
  in_list (lower a) ["id"; "sid"] = true ->
  lower a = "id" \/ lower a = "sid".
Proof.
  unfold in_list. simpl existsb. rewrite orb_false_r.
  intros [H|H]%orb_true_iff; apply String.eqb_eq in H; auto.
Qed.

Section FactoryOutcome.

Variable is_same_object : string -> string -> bool.
Variable D : Type.
Variable entity : class_obj.

(** A call that returns had an allow-listed attribute and code -1, or
    code -2 and an attribute value. *)
Lemma factory_returns_cases (errorCode : Z) (attribute : option string)
    (attribute_value : option value) (missing_data : option string)
    (dto : BaseDTO D) :
  generate_error_dto_and_message is_same_object entity errorCode
    attribute attribute_value missing_data = Ret dto ->
  exists a,
    attribute = Some a
    /\ in_list (lower a) ["id"; "sid"] = true
    /\ (errorCode = (-1)%Z
        \/ (errorCode = (-2)%Z /\ attribute_value <> None)).
Proof.
  intros Hret.
  destruct (Z_lt_dec errorCode (-3)) as [Hlo|Hlo];
    [rewrite factory_bad_code in Hret by lia; discriminate|].
  destruct (Z_le_dec 0 errorCode) as [Hhi|Hhi];
    [rewrite factory_bad_code in Hret by lia; discriminate|].
  destruct attribute as [a|];
    [|rewrite factory_no_attribute in Hret by lia; discriminate].
  destruct (in_list (lower a) ["id"; "sid"]) eqn:Ha;
    [|rewrite factory_bad_attribute in Hret by (lia || assumption);
      discriminate].
  exists a. split; [reflexivity|]. split; [exact Ha|].
  assert (Hc : (errorCode = -3 \/ errorCode = -2 \/ errorCode = -1)%Z)
    by lia.
  destruct Hc as [-> | [-> | ->]].
  - destruct missing_data.
    + rewrite factory_missing_dependent_data in Hret by assumption.
      discriminate.
    + rewrite factory_missing_dependent_data_no_name in Hret
        by assumption.
      discriminate.
  - right. split; [reflexivity|].
    destruct attribute_value; [discriminate|].
    rewrite factory_not_found_no_value in Hret by assumption.
    discriminate.
  - now left.
Qed.

(** What the factory returns is an error envelope. *)
Lemma factory_returns_is_error (errorCode : Z) (attribute : option string)
    (attribute_value : option value) (missing_data : option string)
    (dto : BaseDTO D) :
  generate_error_dto_and_message is_same_object entity errorCode
    attribute attribute_value missing_data = Ret dto ->
  is_error dto = true.
Proof.
  intros Hret.
  destruct (factory_returns_cases _ _ _ _ _ Hret)
    as (a & -> & Ha & [-> | [-> Hv]]).
  - rewrite factory_missing_attribute in Hret by assumption.
    now injection Hret as <-.
  - destruct attribute_value as [v|]; [|contradiction].
    rewrite factory_not_found in Hret by assumption.
    now injection Hret as <-.
Qed.

(** X11.  The factory returns a DTO in two cases only: code -1 with an
    allow-listed attribute, and code -2 with an allow-listed attribute
    and an attribute value.  Every other call raises; code -3 always
    does. *)
Theorem factory_returns_iff (errorCode : Z) (attribute : option string)
    (attribute_value : option value) (missing_data : option string) :
  (exists dto : BaseDTO D,
      generate_error_dto_and_message is_same_object entity errorCode
        attribute attribute_value missing_data = Ret dto)
  <-> (exists a,
          attribute = Some a
          /\ in_list (lower a) ["id"; "sid"] = true
          /\ (errorCode = (-1)%Z
              \/ (errorCode = (-2)%Z /\ attribute_value <> None))).
Proof.
  split.
  - intros [dto Hret]. now apply factory_returns_cases in Hret.
  - intros (a & -> & Ha & [-> | [-> Hv]]).
    + eexists. now apply factory_missing_attribute.
    + destruct attribute_value as [v|]; [|contradiction].
      eexists. now apply factory_not_found.
Qed.

(** X12.  Whatever the factory returns is an error envelope for the code it
    was given: status false, no data, and a message, a name and a type
    that all start with the same entity name. *)
Theorem factory_returns_error_envelope (errorCode : Z)
    (attribute : option string) (attribute_value : option value)
    (missing_data : option string) (dto : BaseDTO D) :
  generate_error_dto_and_message is_same_object entity errorCode
    attribute attribute_value missing_data = Ret dto ->
  is_error dto = true
  /\ Dto.errorCode dto = Some errorCode
  /\ exists message name type : string,
       errorMessage dto = Some (cls_class_name entity ++ " " ++ message)
       /\ errorName dto = Some (cls_class_name entity ++ " " ++ name)
       /\ errorType dto = Some (cls_class_name entity ++ type).
Proof.
  intros Hret.
  destruct (factory_returns_cases _ _ _ _ _ Hret)
    as (a & -> & Ha & [-> | [-> Hv]]).
  - rewrite factory_missing_attribute in Hret by assumption.
    injection Hret as <-. split; [reflexivity|]. split; [reflexivity|].
    do 3 eexists. split; [|split]; reflexivity.
  - destruct attribute_value as [v|]; [|contradiction].
    rewrite factory_not_found in Hret by assumption.
    injection Hret as <-. split; [reflexivity|]. split; [reflexivity|].
    do 3 eexists. split; [|split]; reflexivity.
Qed.

(** X13.  The letter case of an accepted attribute name never shows: two
    spellings of the same name give the same outcome, for every code
    and context. *)
Theorem factory_attribute_case_insensitive (errorCode : Z) (a b : string)
    (attribute_value : option value) (missing_data : option string) :
  in_list (lower a) ["id"; "sid"] = true ->
  lower a = lower b ->
  generate_error_dto_and_message (D:=D) is_same_object entity errorCode
    (Some a) attribute_value missing_data
  = generate_error_dto_and_message (D:=D) is_same_object entity errorCode
      (Some b) attribute_value missing_data.
Proof.
  intros Ha Hab.
  assert (Hb : in_list (lower b) ["id"; "sid"] = true) by now rewrite <- Hab.
  assert (Hup : upper a = upper b).
  { destruct (allow_listed_cases a Ha) as [E|E].
    - rewrite (lower_id_upper a E). rewrite Hab in E.
      now rewrite (lower_id_upper b E).
    - rewrite (lower_sid_upper a E). rewrite Hab in E.
      now rewrite (lower_sid_upper b E). }
  destruct (Z_lt_dec errorCode (-3)) as [Hlo|Hlo];
    [now rewrite !factory_bad_code by lia|].
  destruct (Z_le_dec 0 errorCode) as [Hhi|Hhi];
    [now rewrite !factory_bad_code by lia|].
  assert (Hc : (errorCode = -3 \/ errorCode = -2 \/ errorCode = -1)%Z)
    by lia.
  destruct Hc as [-> | [-> | ->]].
  - destruct missing_data.
    + now rewrite !factory_missing_dependent_data.
    + now rewrite !factory_missing_dependent_data_no_name.
  - destruct attribute_value.
    + rewrite !factory_not_found by assumption. now rewrite Hup.
    + now rewrite !factory_not_found_no_value.
  - rewrite !factory_missing_attribute by assumption. now rewrite Hup.
Qed.

End FactoryOutcome.

Lemma factory_returns_iff_witness :
  exists dto : BaseDTO ResearchContext,
    generate_error_dto_and_message (fun _ _ => false)
      ResearchContext_class (-2) (Some "Sid") (Some (VStr "abc")) None
    = Ret dto.
Proof.
  apply factory_returns_iff. exists "Sid".
  split; [reflexivity|]. split; [reflexivity|].
  right. split; [reflexivity | discriminate].
Defined.

Lemma factory_returns_error_envelope_witness :
  generate_error_dto_and_message (D:=ResearchContext) (fun _ _ => false)
    ResearchContext_class (-1) (Some "id") None None
  = Ret {| status := false;
           errorCode := Some (-1)%Z;
           errorMessage := Some "ModelMetaclass ID cannot be None";
           errorName := Some "ModelMetaclass ID not provided";
           errorType := Some "ModelMetaclassIdNotProvided";
           data := None |}
  /\ is_error
       {| status := false;
          errorCode := Some (-1)%Z;
          errorMessage := Some "ModelMetaclass ID cannot be None";
          errorName := Some "ModelMetaclass ID not provided";
          errorType := Some "ModelMetaclassIdNotProvided";
          data := @None ResearchContext |} = true.
Proof.
  assert (E : generate_error_dto_and_message (D:=ResearchContext)
                (fun _ _ => false) ResearchContext_class (-1) (Some "id")
                None None
              = Ret {| status := false;
                       errorCode := Some (-1)%Z;
                       errorMessage := Some "ModelMetaclass ID cannot be None";
                       errorName := Some "ModelMetaclass ID not provided";
                       errorType := Some "ModelMetaclassIdNotProvided";
                       data := None |}) by reflexivity.
  split; [exact E|].
  exact (proj1 (factory_returns_error_envelope _ _ _ _ _ _ _ _ E)).
Defined.

Lemma factory_attribute_case_insensitive_witness :
  in_list (lower "Sid") ["id"; "sid"] = true
  /\ lower "Sid" = lower "sID"
  /\ generate_error_dto_and_message (D:=ResearchContext) (fun _ _ => false)
       ResearchContext_class (-2) (Some "Sid") (Some (VInt 3)) None
     = generate_error_dto_and_message (D:=ResearchContext)
         (fun _ _ => false) ResearchContext_class (-2) (Some "sID")
         (Some (VInt 3)) None.
Proof.
  split; [reflexivity|]. split; [reflexivity|].
  apply factory_attribute_case_insensitive; reflexivity.
Defined.

(** ** The message repository, case by case *)

Section MessageRepositoryCases.
Import SqlaMessageRepository.

Variable is_same_object : string -> string -> bool.
Variables SQLALfn SQLAProtocol : Type.
Variable validate_lfn : SQLALfn -> res LFN.
Variable MessageResponse : class_obj.

(** X14.  Without a message id the MissingAttribute envelope comes back,
    whatever the store holds: no table is looked at. *)
Theorem list_message_sources_without_id
    (session : Session SQLALfn SQLAProtocol) :
  list_message_sources is_same_object SQLALfn SQLAProtocol validate_lfn
    MessageResponse session None
  = Ret {| status := false;
           errorCode := Some (-1)%Z;
           errorMessage :=
             Some (cls_class_name MessageResponse ++ " ID cannot be None");
           errorName :=
             Some (cls_class_name MessageResponse ++ " ID not provided");
           errorType :=
             Some (cls_class_name MessageResponse ++ "IdNotProvided");
           data := None |}.
Proof.
  unfold list_message_sources. now rewrite factory_missing_attribute.
Qed.

(** X15.  An id with no message row gives the NotFound envelope, whose
    message shows the id in decimal. *)
Theorem list_message_sources_unknown_message
    (session : Session SQLALfn SQLAProtocol) (message_id : Z) :
  message_responses _ _ session !! message_id = None ->
  list_message_sources is_same_object SQLALfn SQLAProtocol validate_lfn
    MessageResponse session (Some message_id)
  = Ret {| status := false;
           errorCode := Some (-2)%Z;
           errorMessage :=
             Some (cls_class_name MessageResponse ++ " with ID "
                   ++ str_of_int message_id
                   ++ " not found in the database");
           errorName := Some (cls_class_name MessageResponse ++ " not found");
           errorType := Some (cls_class_name MessageResponse ++ "NotFound");
           data := None |}.
Proof.
  intros H. unfold list_message_sources. rewrite H.
  now rewrite factory_not_found.
Qed.

(** X16.  The call succeeds exactly for a stored message without citations,
    and the data is then the empty list, not an absent one: a success
    never carries a source. *)
Theorem list_message_sources_succeeds_iff
    (session : Session SQLALfn SQLAProtocol) (message_id : option Z)
    (dto : ListMessageSourcesDTO) :
  (list_message_sources is_same_object SQLALfn SQLAProtocol validate_lfn
     MessageResponse session message_id = Ret dto
   /\ status dto = true)
  <-> (exists id sqla_message,
          message_id = Some id
          /\ message_responses _ _ session !! id = Some sqla_message
          /\ citations sqla_message = []
          /\ dto = {| status := true;
                      errorCode := None;
                      errorMessage := None;
                      errorName := None;
                      errorType := None;
                      data := Some [] |}).
Proof.
  split.
  - intros [Hret Hst]. destruct message_id as [id|].
    + unfold list_message_sources in Hret.
      destruct (message_responses _ _ session !! id) as [m|] eqn:Hm.
      * destruct (for_citations_success _ _ _ _ _ _ _ _ Hret Hst)
          as [Hnil _].
        exists id, m. repeat split; try assumption.
        rewrite Hnil in Hret. cbn [for_citations] in Hret.
        now injection Hret.
      * rewrite factory_not_found in Hret by reflexivity.
        injection Hret as <-. discriminate Hst.
    + unfold list_message_sources in Hret.
      rewrite factory_missing_attribute in Hret by reflexivity.
      injection Hret as <-. discriminate Hst.
  - intros (id & m & -> & Hm & Hnil & ->).
    unfold list_message_sources. rewrite Hm, Hnil. split; reflexivity.
Qed.

(** X17.  When the first citation of a stored message refers to source data
    that is not in the store, the NotFound envelope for that source
    data id comes back, whatever the later citations are. *)
Theorem list_message_sources_first_citation_missing
    (session : Session SQLALfn SQLAProtocol) (message_id : Z)
    (sqla_message : SQLAMessageResponse) (citation : SQLACitation)
    (rest : list SQLACitation) :
  message_responses _ _ session !! message_id = Some sqla_message ->
  citations sqla_message = citation :: rest ->
  source_datas _ _ session !! source_data_id citation = None ->
  list_message_sources is_same_object SQLALfn SQLAProtocol validate_lfn
    MessageResponse session (Some message_id)
  = Ret {| status := false;
           errorCode := Some (-2)%Z;
           errorMessage :=
             Some ("ModelMetaclass with ID "
                   ++ str_of_int (source_data_id citation)
                   ++ " not found in the database");
           errorName := Some "ModelMetaclass not found";
           errorType := Some "ModelMetaclassNotFound";
           data := None |}.
Proof.
  intros Hm Hc Hs. unfold list_message_sources. rewrite Hm, Hc.
  now apply for_citations_first_missing.
Qed.

(** X18.  Every DTO that [list_message_sources] returns is a well-formed
    envelope: a success with data and no error field, or an error with
    the four error fields and no data. *)
Theorem list_message_sources_envelope
    (session : Session SQLALfn SQLAProtocol) (message_id : option Z)
    (dto : ListMessageSourcesDTO) :
  list_message_sources is_same_object SQLALfn SQLAProtocol validate_lfn
    MessageResponse session message_id = Ret dto ->
  is_success dto = true \/ is_error dto = true.
Proof.
  intros Hret. unfold list_message_sources in Hret.
  destruct message_id as [id|];
    [|right; now apply factory_returns_is_error in Hret].
  destruct (message_responses _ _ session !! id) as [m|];
    [|right; now apply factory_returns_is_error in Hret].
  destruct (citations m) as [|citation rest].
  - left. cbn [for_citations] in Hret. now injection Hret as <-.
  - destruct (source_datas _ _ session !! source_data_id citation)
      as [row|] eqn:Hrow.
    + destruct (for_citations_resolved is_same_object SQLALfn
                  SQLAProtocol validate_lfn session citation rest
                  [] row Hrow) as (fields & Hraise & _).
      rewrite Hraise in Hret. discriminate Hret.
    + right. cbn [for_citations] in Hret. rewrite Hrow in Hret.
      now apply factory_returns_is_error in Hret.
Qed.

End MessageRepositoryCases.

Lemma list_message_sources_unknown_message_witness :
  exists dto,
    SqlaMessageRepository.list_message_sources (fun _ _ => false)
      LFN ProtocolEnum Ret (model_class "MessageResponse")
      {| SqlaMessageRepository.message_responses := ∅;
         SqlaMessageRepository.source_datas := ∅ |} (Some 5%Z)
    = Ret dto
    /\ errorCode dto = Some (-2)%Z
    /\ errorMessage dto
       = Some "ModelMetaclass with ID 5 not found in the database".
Proof.
  eexists. split.
  - apply list_message_sources_unknown_message. apply lookup_empty.
  - split; reflexivity.
Defined.

Lemma list_message_sources_succeeds_iff_witness :
  SqlaMessageRepository.list_message_sources (fun _ _ => false)
    LFN ProtocolEnum Ret (model_class "MessageResponse")
    {| SqlaMessageRepository.message_responses :=
         {[ 1%Z := {| SqlaMessageRepository.citations := [] |} ]};
       SqlaMessageRepository.source_datas := ∅ |} (Some 1%Z)
  = Ret {| status := true;
           errorCode := None;
           errorMessage := None;
           errorName := None;
           errorType := None;
           data := Some [] |}.
Proof.
  apply (proj2 (list_message_sources_succeeds_iff (fun _ _ => false)
                  LFN ProtocolEnum Ret (model_class "MessageResponse")
                  _ _ _)).
  exists 1%Z, {| SqlaMessageRepository.citations := [] |}.
  split; [reflexivity|]. split; [apply lookup_singleton_eq|].
  split; reflexivity.
Defined.

Lemma list_message_sources_first_citation_missing_witness :
  exists dto,
    SqlaMessageRepository.list_message_sources (fun _ _ => false)
      LFN ProtocolEnum Ret (model_class "MessageResponse")
      {| SqlaMessageRepository.message_responses :=
           {[ 1%Z :=
                {| SqlaMessageRepository.citations :=
                     [ {| SqlaMessageRepository.source_data_id := 11 |};
                       {| SqlaMessageRepository.source_data_id := 12 |} ]
                |} ]};
         SqlaMessageRepository.source_datas := ∅ |} (Some 1%Z)
    = Ret dto
    /\ errorMessage dto
       = Some "ModelMetaclass with ID 11 not found in the database".
Proof.
  eexists. split.
  - eapply list_message_sources_first_citation_missing.
    + apply lookup_singleton_eq.
    + reflexivity.
    + apply lookup_empty.
  - reflexivity.
Defined.

Lemma list_message_sources_envelope_witness :
  SqlaMessageRepository.list_message_sources (fun _ _ => false)
    LFN ProtocolEnum Ret (model_class "MessageResponse")
    {| SqlaMessageRepository.message_responses := ∅;
       SqlaMessageRepository.source_datas := ∅ |} (Some 5%Z)
  = Ret {| status := false;
           errorCode := Some (-2)%Z;
           errorMessage :=
             Some "ModelMetaclass with ID 5 not found in the database";
           errorName := Some "ModelMetaclass not found";
           errorType := Some "ModelMetaclassNotFound";
           data := None |}
  /\ (is_success
        {| status := false;
           errorCode := Some (-2)%Z;
           errorMessage :=
             Some "ModelMetaclass with ID 5 not found in the database";
           errorName := Some "ModelMetaclass not found";
           errorType := Some "ModelMetaclassNotFound";
           data := @None (list SourceData) |} = true
      \/ is_error
           {| status := false;
              errorCode := Some (-2)%Z;
              errorMessage :=
                Some "ModelMetaclass with ID 5 not found in the database";
              errorName := Some "ModelMetaclass not found";
              errorType := Some "ModelMetaclassNotFound";
              data := @None (list SourceData) |} = true).
Proof.
  assert (E : SqlaMessageRepository.list_message_sources (fun _ _ => false)
                LFN ProtocolEnum Ret (model_class "MessageResponse")
                {| SqlaMessageRepository.message_responses := ∅;
                   SqlaMessageRepository.source_datas := ∅ |} (Some 5%Z)
              = Ret {| status := false;
                       errorCode := Some (-2)%Z;
                       errorMessage :=
                         Some ("ModelMetaclass with ID 5"
                               ++ " not found in the database");
                       errorName := Some "ModelMetaclass not found";
                       errorType := Some "ModelMetaclassNotFound";
                       data := None |}).
  { unfold SqlaMessageRepository.list_message_sources.
    cbn [SqlaMessageRepository.message_responses].
    rewrite lookup_empty. now rewrite factory_not_found. }
  split; [exact E|].
  exact (list_message_sources_envelope _ _ _ _ _ _ _ _ E).
Defined.

(** ** The research-context repository, case by case *)

Section ResearchContextRepositoryCases.
Import SqlaResearchContextRepository.

Variable SQLAResearchContext : Type.
Variable convert : SQLAResearchContext -> res ResearchContext.
Variable SQLAConversation : Type.
Variable conversations : SQLAResearchContext -> list SQLAConversation.
Variable convert_conversation : SQLAConversation -> res Conversation.

(** X19.  [get_research_context] succeeds exactly when the row is in the store
    and its conversion returns; the data is then the converted row. *)
Theorem get_research_context_succeeds_iff
    (session : Session SQLAResearchContext) (research_context_id : Z)
    (dto : GetResearchContextDTO) :
  (get_research_context SQLAResearchContext convert session
     research_context_id = Ret dto
   /\ status dto = true)
  <-> (exists row core,
          research_contexts _ session !! research_context_id = Some row
          /\ convert row = Ret core
          /\ dto = {| status := true;
                      errorCode := None;
                      errorMessage := None;
                      errorName := None;
                      errorType := None;
                      data := Some core |}).
Proof.
  unfold get_research_context. split.
  - intros [Hret Hst].
    destruct (research_contexts _ session !! research_context_id)
      as [row|]; [|injection Hret as <-; discriminate Hst].
    destruct (convert row) as [core|e] eqn:Hc; [|discriminate Hret].
    exists row, core. cbn [bind] in Hret. injection Hret as <-.
    split; [reflexivity|]. split; [exact Hc | reflexivity].
  - intros (row & core & -> & Hc & ->). rewrite Hc. split; reflexivity.
Qed.

(** The loop of [list_conversations] returns the list built so far
    followed by the converted rows, in the order of the rows, exactly
    when every conversion returns. *)
Lemma for_conversations_returns (rows : list SQLAConversation)
    (acc out : list Conversation) :
  for_conversations SQLAConversation convert_conversation rows acc
  = Ret out
  <-> exists cs, out = (acc ++ cs)%list
                 /\ Forall2 (fun r c => convert_conversation r = Ret c)
                      rows cs.
Proof.
  revert acc. induction rows as [|r rows IH]; intros acc;
    cbn [for_conversations].
  - split.
    + intros [= <-]. exists []. split; [now rewrite app_nil_r | constructor].
    + intros (cs & -> & H). inversion H. now rewrite app_nil_r.
  - destruct (convert_conversation r) as [c|e] eqn:Hr; cbn [bind].
    + rewrite IH. split.
      * intros (cs & -> & H). exists (c :: cs).
        split; [now rewrite <- app_assoc | now constructor].
      * intros (cs & -> & H). inversion H as [|? c' ? cs' Hc' H']; subst.
        rewrite Hr in Hc'. injection Hc' as <-.
        exists cs'. split; [now rewrite <- app_assoc | exact H'].
    + split; [discriminate|].
      intros (cs & _ & H). inversion H as [|? c' ? cs' Hc' H']; subst.
      rewrite Hr in Hc'. discriminate Hc'.
Qed.

(** X20.  For a stored research context, [list_conversations] returns the
    success envelope holding [cs] exactly when [cs] are the converted
    conversations of the row, one for one and in the same order; a
    context without conversations gives the empty list. *)
Theorem list_conversations_success
    (session : Session SQLAResearchContext) (research_context_id : Z)
    (row : SQLAResearchContext) (cs : list Conversation) :
  research_contexts _ session !! research_context_id = Some row ->
  (list_conversations SQLAResearchContext SQLAConversation conversations
     convert_conversation session research_context_id
   = Ret {| status := true;
            errorCode := None;
            errorMessage := None;
            errorName := None;
            errorType := None;
            data := Some cs |}
   <-> Forall2 (fun r c => convert_conversation r = Ret c)
         (conversations row) cs).
Proof.
  intros Hrow. unfold list_conversations. rewrite Hrow. cbv zeta.
  destruct (for_conversations SQLAConversation convert_conversation
              (conversations row) []) as [out|e] eqn:Hfor; cbn [bind].
  - apply for_conversations_returns in Hfor as (cs' & -> & H).
    cbn [app]. split.
    + now intros [= ->].
    + intros H'. repeat f_equal.
      clear -H H'. revert cs H'.
      induction H as [|r c rows cs' Hc H IH]; intros cs H';
        inversion H' as [|? c2 ? cs2 Hc2 H2]; subst; [reflexivity|].
      rewrite Hc in Hc2. injection Hc2 as <-. f_equal. now apply IH.
  - split; [discriminate|]. intros H.
    assert (Hex : exists cs0, cs = ([] ++ cs0)%list
                    /\ Forall2 (fun r c => convert_conversation r = Ret c)
                         (conversations row) cs0) by (exists cs; auto).
    apply for_conversations_returns in Hex. rewrite Hfor in Hex.
    discriminate Hex.
Qed.

(** X21.  The first conversation whose conversion raises makes the whole call
    raise the same exception: no partial list is returned. *)
Theorem list_conversations_first_failure
    (session : Session SQLAResearchContext) (research_context_id : Z)
    (row : SQLAResearchContext) (before after : list SQLAConversation)
    (bad : SQLAConversation) (e : exn) :
  research_contexts _ session !! research_context_id = Some row ->
  conversations row = (before ++ bad :: after)%list ->
  Forall (fun r => exists c, convert_conversation r = Ret c) before ->
  convert_conversation bad = Raise e ->
  list_conversations SQLAResearchContext SQLAConversation conversations
    convert_conversation session research_context_id
  = Raise e.
Proof.
  intros Hrow Hsplit Hbefore Hbad.
  unfold list_conversations. rewrite Hrow, Hsplit. cbv zeta.
  clear Hsplit.
  assert (Hfor : forall acc,
             for_conversations SQLAConversation convert_conversation
               (before ++ bad :: after)%list acc = Raise e).
  { induction Hbefore as [|r rows [c Hc] _ IH]; intros acc;
      cbn [app for_conversations].
    - now rewrite Hbad.
    - rewrite Hc. cbn [bind]. apply IH. }
  now rewrite Hfor.
Qed.

(** X22.  Every DTO that the two operations on research contexts return is a
    well-formed envelope. *)
Theorem research_context_repository_envelopes
    (session : Session SQLAResearchContext) (research_context_id : Z) :
  (forall dto,
      get_research_context SQLAResearchContext convert session
        research_context_id = Ret dto ->
      is_success dto = true \/ is_error dto = true)
  /\ (forall dto,
         list_conversations SQLAResearchContext SQLAConversation
           conversations convert_conversation session research_context_id
         = Ret dto ->
         is_success dto = true \/ is_error dto = true).
Proof.
  unfold get_research_context, list_conversations.
  destruct (research_contexts _ session !! research_context_id) as [row|].
  - split; intros dto.
    + destruct (convert row); cbn [bind]; [|discriminate].
      intros [= <-]. now left.
    + cbv zeta. destruct (for_conversations _ _ _ _); cbn [bind];
        [|discriminate].
      intros [= <-]. now left.
  - split; intros dto [= <-]; now right.
Qed.

End ResearchContextRepositoryCases.

Lemma get_research_context_succeeds_iff_witness :
  SqlaResearchContextRepository.get_research_context string
    (fun title =>
       Ret {| rc_created_at := 0%Z; rc_updated_at := 0%Z; rc_deleted := false;
              rc_deleted_at := None; rc_id := 7%Z; rc_title := title;
              rc_description := "d" |})
    {| SqlaResearchContextRepository.research_contexts :=
         {[ 7%Z := "topic" ]} |} 7
  = Ret {| status := true;
           errorCode := None;
           errorMessage := None;
           errorName := None;
           errorType := None;
           data :=
             Some {| rc_created_at := 0%Z; rc_updated_at := 0%Z;
                     rc_deleted := false; rc_deleted_at := None;
                     rc_id := 7%Z; rc_title := "topic";
                     rc_description := "d" |} |}.
Proof.
  apply (proj2 (get_research_context_succeeds_iff string _ _ 7%Z _)).
  exists "topic". eexists.
  split; [apply lookup_singleton_eq|]. split; reflexivity.
Defined.

Lemma list_conversations_success_witness :
  SqlaResearchContextRepository.list_conversations (list string) string
    (fun row => row)
    (fun title =>
       Ret {| cv_created_at := 0%Z; cv_updated_at := 0%Z; cv_deleted := false;
              cv_deleted_at := None; cv_id := 1%Z; cv_title := title |})
    {| SqlaResearchContextRepository.research_contexts :=
         {[ 7%Z := ["first"; "second"] ]} |} 7
  = Ret {| status := true;
           errorCode := None;
           errorMessage := None;
           errorName := None;
           errorType := None;
           data :=
             Some [ {| cv_created_at := 0%Z; cv_updated_at := 0%Z;
                       cv_deleted := false; cv_deleted_at := None;
                       cv_id := 1%Z; cv_title := "first" |};
                    {| cv_created_at := 0%Z; cv_updated_at := 0%Z;
                       cv_deleted := false; cv_deleted_at := None;
                       cv_id := 1%Z; cv_title := "second" |} ] |}.
Proof.
  apply (proj2 (list_conversations_success (list string) string
                  (fun row => row) _ _ 7%Z ["first"; "second"] _
                  (lookup_singleton_eq _ _))).
  repeat constructor.
Defined.

Lemma list_conversations_first_failure_witness :
  SqlaResearchContextRepository.list_conversations (list string) string
    (fun row => row)
    (fun title =>
       if String.eqb title EmptyString then
         Raise (ValidationError ["title"])
       else
         Ret {| cv_created_at := 0%Z; cv_updated_at := 0%Z; cv_deleted := false;
                cv_deleted_at := None; cv_id := 1%Z; cv_title := title |})
    {| SqlaResearchContextRepository.research_contexts :=
         {[ 7%Z := ["first"; EmptyString; "third"] ]} |} 7
  = Raise (ValidationError ["title"]).
Proof.
  apply (list_conversations_first_failure (list string) string
           (fun row => row) _ _ 7%Z ["first"; EmptyString; "third"]
           ["first"] ["third"] EmptyString).
  - apply lookup_singleton_eq.
  - reflexivity.
  - repeat constructor. eexists. reflexivity.
  - reflexivity.
Defined.

Lemma research_context_repository_envelopes_witness :
  SqlaResearchContextRepository.get_research_context string
    (fun _ => Raise (ValidationError []))
    {| SqlaResearchContextRepository.research_contexts := ∅ |} 999
  = Ret {| status := false;
           errorCode := Some (-1)%Z;
           errorMessage := Some "Research context 999 not found.";
           errorName := Some "ResearchContextNotFound";
           errorType := Some "ResearchContextNotFound";
           data := None |}
  /\ is_error
       {| status := false;
          errorCode := Some (-1)%Z;
          errorMessage := Some "Research context 999 not found.";
          errorName := Some "ResearchContextNotFound";
          errorType := Some "ResearchContextNotFound";
          data := @None ResearchContext |} = true.
Proof.
  assert (E : SqlaResearchContextRepository.get_research_context string
                (fun _ => Raise (ValidationError []))
                {| SqlaResearchContextRepository.research_contexts := ∅ |}
                999
              = Ret {| status := false;
                       errorCode := Some (-1)%Z;
                       errorMessage := Some "Research context 999 not found.";
                       errorName := Some "ResearchContextNotFound";
                       errorType := Some "ResearchContextNotFound";
                       data := None |}).
  { rewrite get_research_context_absent by apply lookup_empty.
    reflexivity. }
  split; [exact E|].
  destruct (proj1 (research_context_repository_envelopes string
                     (fun _ => Raise (ValidationError [])) nat
                     (fun _ => []) (fun _ => Raise (ValidationError []))
                     {| SqlaResearchContextRepository.research_contexts
                          := ∅ |} 999) _ E) as [H|H].
  - discriminate H.
  - exact H.
Defined.
